(** * raster-sandbox: batch tiling drivers, viewer generator and CORS tile servers

    A shallow embedding of the three scripts of the repository

      - [learning/cors_server.py]      (the simpler CORS static server),
      - [learning/raster_tiles.py]     (CLI driver, viewer generator, tile server),
      - [learning/raster_tiles_v2.py]  (the second batch driver),

    followed by the statements proved about them.  Everything the scripts
    delegate to (the GDAL tools, the operating system, Python's [http.server])
    is outside the repository; its behaviour enters the development as the
    fields of a [World] record or as the documented contract of the library
    primitive, never as a property of the scripts. *)

From Stdlib Require Import ZArith String Ascii List DecimalString Lia.
From stdpp Require Import base option gmap strings list.

Open Scope string_scope.
Open Scope list_scope.
Open Scope Z_scope.

(* ===================================================================== *)
(** ** Python string and path helpers used by the scripts *)
(* ===================================================================== *)

Module PyStr.

(** [str.endswith(suffix)]. *)
Definition endswith (s suffix : string) : bool :=
  let n := String.length s in
  let m := String.length suffix in
  (m <=? n)%nat && String.eqb (substring (n - m) m s) suffix.

(** [str.endswith((s1, s2, ...))]: a tuple of suffixes. *)
Definition endswith_any (s : string) (suffixes : list string) : bool :=
  existsb (endswith s) suffixes.

(** [str.startswith(prefix)]. *)
Definition startswith (s pre : string) : bool := String.prefix pre s.

Definition lower_ascii (c : ascii) : ascii :=
  let n := nat_of_ascii c in
  if ((65 <=? n) && (n <=? 90))%nat then ascii_of_nat (n + 32) else c.

(** [str.lower()] on the ASCII range; file names are taken as byte strings. *)
Fixpoint lower (s : string) : string :=
  match s with
  | EmptyString => EmptyString
  | String c r => String (lower_ascii c) (lower r)
  end.

(** [str(n)] and the [{n}] of a format string, for an integer. *)
Definition str_of_Z (n : Z) : string := NilZero.string_of_int (Z.to_int n).

(** [sep.join(parts)]. *)
Definition join (sep : string) (parts : list string) : string :=
  String.concat sep parts.

(** [s.rfind(c)] for a one-character needle: the last index, or -1. *)
Fixpoint rfind_from (c : ascii) (s : string) (i : Z) (last : Z) : Z :=
  match s with
  | EmptyString => last
  | String d r => rfind_from c r (i + 1) (if Ascii.eqb d c then i else last)
  end.

Definition rfind (c : ascii) (s : string) : Z := rfind_from c s 0 (-1).

(** The slice [s[i:]] and the slice [s[:i]] for [0 <= i]. *)
Definition slice_from (i : Z) (s : string) : string :=
  substring (Z.to_nat i) (String.length s - Z.to_nat i) s.

Definition slice_to (i : Z) (s : string) : string :=
  substring 0 (Z.to_nat i) s.

(** [os.path.join(a, b)] of [posixpath]. *)
Definition os_path_join (a b : string) : string :=
  if startswith b "/" then b
  else if String.eqb a EmptyString || endswith a "/" then a +:+ b
  else a +:+ "/" +:+ b.

(** [os.path.basename(p)]: what follows the last slash. *)
Definition os_path_basename (p : string) : string :=
  slice_from (rfind "/" p + 1) p.

(** [os.path.splitext(p)[0]] of [genericpath._splitext]: the extension
    starts at the last dot of the last component, unless only dots
    precede it there. *)
Definition os_path_splitext_root (p : string) : string :=
  let sepIndex := rfind "/" p in
  let dotIndex := rfind "." p in
  if sepIndex <? dotIndex then
    let leading := substring (Z.to_nat (sepIndex + 1))
                             (Z.to_nat (dotIndex - (sepIndex + 1))) p in
    if existsb (fun c => negb (Ascii.eqb c ".")) (list_ascii_of_string leading)
    then slice_to dotIndex p
    else p
  else p.

(** Python's [str.isspace] on one ASCII character. *)
Definition is_space (c : ascii) : bool :=
  let n := nat_of_ascii c in
  ((9 <=? n) && (n <=? 13) || (28 <=? n) && (n <=? 32))%nat.

Fixpoint lstrip (s : string) : string :=
  match s with
  | EmptyString => EmptyString
  | String c r => if is_space c then lstrip r else s
  end.

Fixpoint rstrip (s : string) : string :=
  match s with
  | EmptyString => EmptyString
  | String c r =>
      match rstrip r with
      | EmptyString => if is_space c then EmptyString else String c EmptyString
      | r' => String c r'
      end
  end.

(** [str.strip()]. *)
Definition strip (s : string) : string := rstrip (lstrip s).

(** Number of positions of [s] at which [pat] occurs. *)
Fixpoint count_sub (pat s : string) : nat :=
  match s with
  | EmptyString => if String.prefix pat EmptyString then 1%nat else 0%nat
  | String _ r =>
      ((if String.prefix pat s then 1 else 0) + count_sub pat r)%nat
  end.

(** The double-quote character, for the text of the viewer document. *)
Definition dq : string := String (ascii_of_nat 34) EmptyString.

End PyStr.

(* ===================================================================== *)
(** ** The CORS request handlers
       ([cors_server.CORSHTTPRequestHandler], [raster_tiles.RasterTileServer]) *)
(* ===================================================================== *)

Module Http.

(** The two handler classes.  Both subclass
    [http.server.SimpleHTTPRequestHandler] and override [end_headers] and
    [do_OPTIONS]; they differ in one header value. *)
Inductive Variant := CorsServer | RasterTiles.

(** One entry of the handler's [_headers_buffer]. *)
Inductive HeaderLine :=
| StatusLine (code : Z)
| Header (keyword value : string).

(** What has been written to the connection ([wfile]). *)
Inductive Chunk :=
| HeaderBlock (lines : list HeaderLine)
| Body (data : string).

(** What handling a request does besides writing to the connection. *)
Inductive Effect :=
| LogRequest (code : Z)
| FsAccess (path : string).

(** The handler object: the fields of [BaseHTTPRequestHandler] the two
    classes touch. [server_version] and [date] are the values of
    [version_string()] and [date_time_string()]. *)
Record Handler := mkHandler {
  headers_buffer : list HeaderLine;
  wfile : list Chunk;
  effects : list Effect;
  server_version : string;
  date : string
}.

Definition new_handler (version now : string) : Handler :=
  mkHandler [] [] [] version now.

(** *** Primitives inherited from [BaseHTTPRequestHandler]

    They are the library's, for a request line that carries an HTTP
    version of 1.0 or later: only then does the library write a status
    line and headers at all. *)

Definition send_header (keyword value : string) (h : Handler) : Handler :=
  mkHandler (headers_buffer h ++ [Header keyword value])
            (wfile h) (effects h) (server_version h) (date h).

Definition send_response_only (code : Z) (h : Handler) : Handler :=
  mkHandler (headers_buffer h ++ [StatusLine code])
            (wfile h) (effects h) (server_version h) (date h).

Definition log_request (code : Z) (h : Handler) : Handler :=
  mkHandler (headers_buffer h) (wfile h) (effects h ++ [LogRequest code])
            (server_version h) (date h).

(** [send_response(code)]: log, status line, [Server] and [Date]. *)
Definition send_response (code : Z) (h : Handler) : Handler :=
  let h := log_request code h in
  let h := send_response_only code h in
  let h := send_header "Server" (server_version h) h in
  send_header "Date" (date h) h.

(** [BaseHTTPRequestHandler.end_headers]: the blank line, then
    [flush_headers] writes the joined buffer and empties it. *)
Definition base_end_headers (h : Handler) : Handler :=
  mkHandler [] (wfile h ++ [HeaderBlock (headers_buffer h)])
            (effects h) (server_version h) (date h).

Definition wfile_write (data : string) (h : Handler) : Handler :=
  mkHandler (headers_buffer h) (wfile h ++ [Body data])
            (effects h) (server_version h) (date h).

Definition fs_access (path : string) (h : Handler) : Handler :=
  mkHandler (headers_buffer h) (wfile h) (effects h ++ [FsAccess path])
            (server_version h) (date h).

(** *** The overrides of the repository *)

Definition allow_headers (v : Variant) : string :=
  match v with
  | CorsServer => "Content-Type"
  | RasterTiles => "*"
  end.

(** [end_headers]: three [send_header] calls, then the inherited method. *)
Definition end_headers (v : Variant) (h : Handler) : Handler :=
  let h := send_header "Access-Control-Allow-Origin" "*" h in
  let h := send_header "Access-Control-Allow-Methods" "GET, OPTIONS" h in
  let h := send_header "Access-Control-Allow-Headers" (allow_headers v) h in
  base_end_headers h.

(** [do_OPTIONS]. *)
Definition do_OPTIONS (v : Variant) (h : Handler) : Handler :=
  let h := send_response 200 h in
  end_headers v h.

(** *** The inherited request methods

    [do_GET], [do_HEAD] and [send_error] are library code.  Whatever they
    decide from the request and the served directory, they act on the
    handler through the calls below, and they close a header block by
    calling [self.end_headers()], which Python dispatches to the
    override. *)
Inductive Call :=
| CallSendResponse (code : Z)
| CallSendHeader (keyword value : string)
| CallEndHeaders
| CallWrite (data : string)
| CallFs (path : string).

Definition run_call (v : Variant) (c : Call) (h : Handler) : Handler :=
  match c with
  | CallSendResponse code => send_response code h
  | CallSendHeader k x => send_header k x h
  | CallEndHeaders => end_headers v h
  | CallWrite data => wfile_write data h
  | CallFs path => fs_access path h
  end.

Fixpoint run_calls (v : Variant) (cs : list Call) (h : Handler) : Handler :=
  match cs with
  | [] => h
  | c :: cs' => run_calls v cs' (run_call v c h)
  end.

Record Request := mkRequest {
  command : string;
  path : string
}.

(** [handle_one_request] after parsing: the method [do_<command>] is
    looked up on the handler; [inherited] stands for what the base class
    runs for every command other than [OPTIONS] ([do_GET], [do_HEAD], or
    [send_error(501)] when the method does not exist). *)
Definition handle (v : Variant) (inherited : Request -> list Call)
           (req : Request) (h : Handler) : Handler :=
  if String.eqb (command req) "OPTIONS" then do_OPTIONS v h
  else run_calls v (inherited req) h.

(** *** Observations on a response *)

Definition cors_headers (v : Variant) : list HeaderLine :=
  [ Header "Access-Control-Allow-Origin" "*";
    Header "Access-Control-Allow-Methods" "GET, OPTIONS";
    Header "Access-Control-Allow-Headers" (allow_headers v) ].

(** A header block carries the three CORS headers of the variant. *)
Definition carries_cors (v : Variant) (c : Chunk) : Prop :=
  match c with
  | HeaderBlock lines => forall l, l ∈ cors_headers v -> l ∈ lines
  | Body _ => True
  end.

Definition is_header_block (c : Chunk) : bool :=
  match c with HeaderBlock _ => true | Body _ => false end.

(** The status codes sent, in order. *)
Definition statuses (h : Handler) : list Z :=
  flat_map (fun c => match c with
                     | HeaderBlock lines =>
                         flat_map (fun l => match l with
                                            | StatusLine code => [code]
                                            | Header _ _ => []
                                            end) lines
                     | Body _ => []
                     end) (wfile h).

(** The bytes of the response body. *)
Definition body (h : Handler) : string :=
  String.concat EmptyString
    (flat_map (fun c => match c with
                        | HeaderBlock _ => []
                        | Body data => [data]
                        end) (wfile h)).

(** How often a list of calls ends a header block, and how many header
    blocks a handler has written. *)
Definition count_end_headers (cs : list Call) : nat :=
  length (List.filter (fun c => match c with CallEndHeaders => true | _ => false end) cs).

Definition count_blocks (h : Handler) : nat :=
  length (List.filter is_header_block (wfile h)).

Definition fs_accesses (h : Handler) : list string :=
  flat_map (fun e => match e with
                     | FsAccess p => [p]
                     | LogRequest _ => []
                     end) (effects h).

End Http.

(* ===================================================================== *)
(** ** The viewer document ([raster_tiles.generate_html_viewer]) *)
(* ===================================================================== *)

Module Viewer.
Import PyStr.

Definition nl : string := String (ascii_of_nat 10) EmptyString.

(** The lines of a triple-quoted literal, joined by line feeds. *)
Definition unlines (ls : list string) : string := String.concat nl ls.

(** The opening f-string: the document up to the comment that announces
    the raster layers. *)
Definition html_head : string :=
  unlines [
    "<!DOCTYPE html>";
    "<html lang=" +:+ dq +:+ "en" +:+ dq +:+ ">";
    "<head>";
    "    <meta charset=" +:+ dq +:+ "UTF-8" +:+ dq +:+ ">";
    "    <meta name=" +:+ dq +:+ "viewport" +:+ dq +:+ " content=" +:+ dq +:+ "width=device-width, initial-scale=1.0" +:+ dq +:+ ">";
    "    <title>Raster Tile Viewer</title>";
    "    <link rel=" +:+ dq +:+ "stylesheet" +:+ dq +:+ " href=" +:+ dq +:+ "https://unpkg.com/leaflet@1.7.1/dist/leaflet.css" +:+ dq +:+ " />";
    "    <style>";
    "        body, html { height: 100%; margin: 0; padding: 0; }";
    "        #map { height: 100%; }";
    "        .layer-control {";
    "            position: absolute;";
    "            top: 10px;";
    "            right: 10px;";
    "            z-index: 1000;";
    "            background: white;";
    "            padding: 10px;";
    "            border-radius: 5px;";
    "            box-shadow: 0 0 10px rgba(0,0,0,0.1);";
    "        }";
    "        .layer-control h3 {";
    "            margin-top: 0;";
    "            margin-bottom: 10px;";
    "        }";
    "        .layer-item {";
    "            margin-bottom: 5px;";
    "        }";
    "    </style>";
    "</head>";
    "<body>";
    "    <div id=" +:+ dq +:+ "map" +:+ dq +:+ "></div>";
    "    <div class=" +:+ dq +:+ "layer-control" +:+ dq +:+ ">";
    "        <h3>Raster Layers</h3>";
    "        <div id=" +:+ dq +:+ "layer-list" +:+ dq +:+ ">";
    "            <!-- Layer controls will be added here -->";
    "        </div>";
    "    </div>";
    EmptyString;
    "    <script src=" +:+ dq +:+ "https://unpkg.com/leaflet@1.7.1/dist/leaflet.js" +:+ dq +:+ "></script>";
    "    <script>";
    "        // Initialize the map";
    "        const map = L.map('map').setView([0, 0], 2);";
    "        ";
    "        // Add OpenStreetMap as a base layer";
    "        L.tileLayer('https://{s}.tile.openstreetmap.org/{z}/{x}/{y}.png', {";
    "            attribution: '&copy; <a href=" +:+ dq +:+ "https://www.openstreetmap.org/copyright" +:+ dq +:+ ">OpenStreetMap</a> contributors'";
    "        }).addTo(map);";
    "        ";
    "        // Define the raster layers";
    "        const rasterLayers = {'OpenStreetMap': null};";
    "        ";
    "        // Add raster tile layers";
    "        " ].

(** The f-string appended for each source by the [for] loop. *)
Definition html_layer (source : string) (port : Z) : string :=
  unlines [
    EmptyString;
    "        rasterLayers['" +:+ source +:+ "'] = L.tileLayer('http://localhost:" +:+ str_of_Z port +:+ "/" +:+ source +:+ "/{z}/{x}/{y}.png', {";
    "            minZoom: 0,";
    "            maxZoom: 18,";
    "            attribution: 'Generated Raster Tiles'";
    "        });";
    "        " ].

(** The closing literal: layer controls and the end of the document. *)
Definition html_tail : string :=
  unlines [
    EmptyString;
    "        // Create layer controls";
    "        const layerList = document.getElementById('layer-list');";
    "        ";
    "        Object.keys(rasterLayers).forEach((layerName, index) => {";
    "            const layerItem = document.createElement('div');";
    "            layerItem.className = 'layer-item';";
    "            ";
    "            const checkbox = document.createElement('input');";
    "            checkbox.type = 'checkbox';";
    "            checkbox.id = `layer-${index}`;";
    "            checkbox.checked = index === 0;";
    "            ";
    "            const label = document.createElement('label');";
    "            label.htmlFor = `layer-${index}`;";
    "            label.textContent = layerName;";
    "            ";
    "            checkbox.addEventListener('change', () => {";
    "                if (checkbox.checked) {";
    "                    if (rasterLayers[layerName]) {";
    "                        rasterLayers[layerName].addTo(map);";
    "                    }";
    "                } else {";
    "                    if (rasterLayers[layerName]) {";
    "                        map.removeLayer(rasterLayers[layerName]);";
    "                    }";
    "                }";
    "            });";
    "            ";
    "            layerItem.appendChild(checkbox);";
    "            layerItem.appendChild(label);";
    "            layerList.appendChild(layerItem);";
    "            ";
    "            // Add the first layer to the map";
    "            if (index === 1 && rasterLayers[layerName]) {";
    "                rasterLayers[layerName].addTo(map);";
    "            }";
    "        });";
    "        ";
    "        // Try to fit the map to the bounds of the first layer";
    "        if (Object.keys(rasterLayers).length > 1) {";
    "            const firstLayerName = Object.keys(rasterLayers)[1];";
    "            const firstLayer = rasterLayers[firstLayerName];";
    "            ";
    "            // This will center the map when the first tiles load";
    "            if (firstLayer) {";
    "                firstLayer.on('load', function() {";
    "                    try {";
    "                        // Center approximately on loaded tiles";
    "                        map.setView([35, -100], 4);";
    "                    } catch (e) {";
    "                        console.error('Error setting map view:', e);";
    "                    }";
    "                });";
    "            }";
    "        }";
    "    </script>";
    "</body>";
    "</html>";
    EmptyString ].

(** [html_content] as [generate_html_viewer] builds it: the head, one
    layer block per source in list order, the tail. *)
Fixpoint add_layers (html_content : string) (sources : list string)
         (port : Z) : string :=
  match sources with
  | [] => html_content
  | source :: rest => add_layers (html_content +:+ html_layer source port) rest port
  end.

Definition html_content (sources : list string) (port : Z) : string :=
  add_layers html_head sources port +:+ html_tail.

Definition html_path (output_dir : string) : string :=
  os_path_join output_dir "viewer.html".

(** How a tile layer and the base layer are written in the document. *)
Definition tile_layer_call : string := "L.tileLayer(".

Definition source_layer_def (source : string) (port : Z) : string :=
  "rasterLayers['" +:+ source +:+ "'] = L.tileLayer('http://localhost:"
    +:+ str_of_Z port +:+ "/" +:+ source +:+ "/{z}/{x}/{y}.png'".

Definition source_layer_prefix : string := "] = L.tileLayer('".

Definition base_layer_def : string :=
  "L.tileLayer('https://{s}.tile.openstreetmap.org/{z}/{x}/{y}.png'".

End Viewer.

(* ===================================================================== *)
(** ** The batch drivers ([raster_tiles.py], [raster_tiles_v2.py]) *)
(* ===================================================================== *)

Module Driver.
Import PyStr.

(** *** Exceptions, with the part of Python's class hierarchy the
    [except] clauses of the scripts distinguish *)
Inductive Exn :=
| CalledProcessError (cmd : list string) (returncode : Z)
| FileNotFoundError (what : string)
| OSError (what : string)
| SystemExit (code : Z).

Definition is_SubprocessError (e : Exn) : bool :=
  match e with CalledProcessError _ _ => true | _ => false end.

Definition is_FileNotFoundError (e : Exn) : bool :=
  match e with FileNotFoundError _ => true | _ => false end.

Definition is_OSError (e : Exn) : bool :=
  match e with FileNotFoundError _ | OSError _ => true | _ => false end.

(** [except Exception] does not catch [SystemExit]. *)
Definition is_Exception (e : Exn) : bool :=
  match e with SystemExit _ => false | _ => true end.

(** *** The outside world *)

(** What starting a command gives: it ran to an exit status, with its
    captured output, or the executable was not found. *)
Inductive ProcResult :=
| Exited (returncode : Z) (stdout : list string) (stderr : string)
| NotFound.

(** How [serve_forever] ends when it ends with an exit status: Ctrl+C, or
    the listening socket could not be bound in the first place. *)
Inductive ServerStop := KeyboardInterrupt | AddressInUse.

Inductive Level := DEBUG | INFO | WARNING | ERROR.

(** The effects of a run, in program order. *)
Inductive Event :=
| Run (argv : list string)
| Makedirs (path : string)
| Listdir (path : string)
| Glob (dir pattern : string)
| Exists (path : string)
| Remove (path : string)
| WriteFile (path content : string)
| Log (level : Level) (msg : string)
| Chdir (path : string)
| Serve (port : Z)
| OpenBrowser (url : string).

(** The parsed command line of [raster_tiles.py]. *)
Record Args := mkArgs {
  input_dir : string;
  output_dir : string;
  min_zoom : Z;
  max_zoom : Z;
  format : string;
  resampling : string;
  port : Z;
  serve_only : bool;
  verbose : bool;
  force_cli : bool
}.

(** The parsed command line of [raster_tiles_v2.py]. *)
Record Args2 := mkArgs2 {
  input_dir2 : string;
  output_dir2 : string;
  min_zoom2 : Z;
  max_zoom2 : Z;
  format2 : string;
  resampling2 : string;
  verbose2 : bool;
  single_file : option string
}.

(** Everything a run depends on that is not the scripts' own code.  A
    command's outcome is a function of its argument vector, a removal's of
    its path; the clock is read once per source file.  Creating a
    directory that is missing is taken to succeed. *)
Record World := mkWorld {
  spawn : list string -> ProcResult;
  remove_ok : string -> bool;
  clock : string -> Z;                (* [int(time.time())] while this source is processed *)
  cpu_count : option Z;               (* [os.cpu_count()] *)
  path_exists : string -> bool;       (* [Path.exists()] *)
  pathlib_child : string -> string -> string;   (* [str(Path(d) / name)] *)
  abspath : string -> string;         (* [os.path.abspath] *)
  str_exn : Exn -> string;            (* [str(e)] *)
  server_stop : ServerStop;
  RASTER_TILER_AVAILABLE : bool;      (* did [dspvector...RasterTiler] import *)
  raster_tiler : Args -> string + list string;
                                      (* [RasterTiler(...).process_all_tifs()]:
                                         the message of the exception raised,
                                         or the sources returned *)
  HAS_GDAL : bool                     (* did [osgeo.gdal] import *)
}.

(** The state a run threads: the directories that exist, each with the
    names of its entries in [os.listdir] order, and the effects so far. *)
Record State := mkState {
  dirs : gmap string (list string);
  trace : list Event
}.

(** *** A state and exception monad for the scripts *)

Inductive Outcome (A : Type) :=
| Ok (a : A)
| Raise (e : Exn).
Arguments Ok {A} a.
Arguments Raise {A} e.

Definition M (A : Type) : Type := State -> Outcome A * State.

Definition ret {A} (a : A) : M A := fun st => (Ok a, st).

Definition bind {A B} (m : M A) (k : A -> M B) : M B :=
  fun st =>
    match m st with
    | (Ok a, st') => k a st'
    | (Raise e, st') => (Raise e, st')
    end.

Definition raise {A} (e : Exn) : M A := fun st => (Raise e, st).

(** [try: body  except <classes> as e: handler e]. *)
Definition try_except {A} (body : M A) (catches : Exn -> bool)
           (handler : Exn -> M A) : M A :=
  fun st =>
    match body st with
    | (Ok a, st') => (Ok a, st')
    | (Raise e, st') => if catches e then handler e st' else (Raise e, st')
    end.

Definition emit (ev : Event) : M unit :=
  fun st => (Ok tt, mkState (dirs st) (trace st ++ [ev])).

Definition get_dirs : M (gmap string (list string)) :=
  fun st => (Ok (dirs st), st).

Definition set_dirs (d : gmap string (list string)) : M unit :=
  fun st => (Ok tt, mkState d (trace st)).

Declare Scope py_scope.
Delimit Scope py_scope with py.
Notation "x <- m ;; k" := (bind m (fun x => k))
  (at level 100, m at next level, k at level 200, right associativity) : py_scope.
Notation "m ;; k" := (bind m (fun _ => k))
  (at level 100, k at level 200, right associativity) : py_scope.
Open Scope py_scope.

(** [for x in xs: acc = body x acc]. *)
Fixpoint for_each {A B} (xs : list A) (acc : B) (body : A -> B -> M B) : M B :=
  match xs with
  | [] => ret acc
  | x :: rest => acc' <- body x acc ;; for_each rest acc' body
  end.

Definition exit_status {A} (code_of : A -> Z) (o : Outcome A) : Z :=
  match o with
  | Ok a => code_of a
  | Raise (SystemExit code) => code
  | Raise _ => 1
  end.

Section Scripts.
Variable w : World.

(** *** Library calls *)

Definition log (level : Level) (msg : string) : M unit := emit (Log level msg).

(** [subprocess.run(argv, check=check)] and [subprocess.Popen(argv)]
    followed by [wait()]. *)
Definition subprocess_run (argv : list string) (check : bool)
  : M (Z * list string * string) :=
  emit (Run argv) ;;
  match spawn w argv with
  | NotFound => raise (FileNotFoundError (hd EmptyString argv))
  | Exited rc out err =>
      if check && negb (rc =? 0) then raise (CalledProcessError argv rc)
      else ret (rc, out, err)
  end.

(** [os.makedirs(path, exist_ok=True)]. *)
Definition os_makedirs (path : string) : M unit :=
  emit (Makedirs path) ;;
  d <- get_dirs ;;
  match d !! path with
  | Some _ => ret tt
  | None => set_dirs (<[path := []]> d)
  end.

Definition os_listdir (path : string) : M (list string) :=
  emit (Listdir path) ;;
  d <- get_dirs ;;
  match d !! path with
  | Some names => ret names
  | None => raise (FileNotFoundError path)
  end.

Definition os_path_isdir (d : gmap string (list string)) (path : string) : bool :=
  bool_decide (is_Some (d !! path)).

Definition os_remove (path : string) : M unit :=
  emit (Remove path) ;;
  if remove_ok w path then ret tt else raise (OSError path).

Definition os_chdir (path : string) : M unit :=
  emit (Chdir path) ;;
  d <- get_dirs ;;
  match d !! path with
  | Some _ => ret tt
  | None => raise (FileNotFoundError path)
  end.

(** [Path(dir).glob('*.tif')], as [str] paths: the entries whose name
    ends in [.tif]; nothing when the directory does not exist. *)
Definition path_glob_tif (dir : string) : M (list string) :=
  emit (Glob dir "*.tif") ;;
  d <- get_dirs ;;
  ret (map (pathlib_child w dir)
           (List.filter (fun f => endswith f ".tif") (default [] (d !! dir)))).

Definition sys_exit {A} (code : Z) : M A := raise (SystemExit code).

Definition len {A} (l : list A) : Z := Z.of_nat (length l).

Definition is_empty {A} (l : list A) : bool :=
  match l with [] => true | _ => false end.

(** *** [raster_tiles.py] *)

(** [start_server(directory, port)]: change directory, bind, serve until
    interrupted. *)
Definition start_server (directory : string) (port : Z) : M unit :=
  os_chdir directory ;;
  match server_stop w with
  | AddressInUse => raise (OSError "Address already in use")
  | KeyboardInterrupt =>
      log INFO ("Serving raster tiles at http://localhost:" +:+ str_of_Z port) ;;
      log INFO "Press Ctrl+C to stop the server" ;;
      emit (Serve port) ;;
      log INFO "Server stopped"
  end.

(** [generate_html_viewer(sources, output_dir, port)]. *)
Definition generate_html_viewer (sources : list string) (output_dir : string)
           (port : Z) : M string :=
  let html_path := Viewer.html_path output_dir in
  emit (WriteFile html_path (Viewer.html_content sources port)) ;;
  ret html_path.

Definition resampling_map : gmap string string :=
  list_to_map [ ("nearest", "near");
                ("bilinear", "bilinear");
                ("cubic", "cubic");
                ("cubicspline", "cubicspline");
                ("lanczos", "lanczos");
                ("average", "average");
                ("mode", "mode") ].

Definition format_map : gmap string string :=
  list_to_map [ ("png", "PNG"); ("jpg", "JPEG"); ("webp", "WEBP") ].

(** The names of [os.listdir(input_dir)] the list comprehension keeps. *)
Definition is_tif_name (f : string) : bool :=
  endswith_any (lower f) [".tif"; ".tiff"].

Definition source_name_of (tif_file : string) : string :=
  os_path_splitext_root (os_path_basename tif_file).

Definition vrt_path_of (output_dir tif_file : string) : string :=
  let source_name := source_name_of tif_file in
  os_path_join output_dir
    ("temp_web_mercator_" +:+ source_name +:+ "_"
       +:+ str_of_Z (clock w tif_file) +:+ ".vrt").

Definition gdalwarp_argv (resampling tif_file vrt_path : string) : list string :=
  [ "gdalwarp"; "-t_srs"; "EPSG:3857"; "-r"; resampling; "-of"; "VRT";
    tif_file; vrt_path ].

Definition gdal2tiles_argv (min_zoom max_zoom : Z)
           (resampling gdal_format vrt_path tile_dir : string) : list string :=
  [ "gdal2tiles.py";
    "--zoom"; str_of_Z min_zoom +:+ "-" +:+ str_of_Z max_zoom;
    "--resampling"; resampling;
    "--webviewer"; "none";
    "--tilesize"; "256";
    "--processes";
      str_of_Z (match cpu_count w with
                | Some n => if n =? 0 then 1 else n
                | None => 1
                end);
    "--format"; gdal_format;
    vrt_path; tile_dir ].

(** The body of the [try] of one loop iteration, up to and including the
    append to [processed_sources]. *)
Definition process_one_tif (output_dir : string) (min_zoom max_zoom : Z)
           (resampling gdal_format : string)
           (tif_file : string) (processed_sources : list string)
  : M (list string) :=
  let source_name := source_name_of tif_file in
  log INFO ("Processing " +:+ source_name +:+ "...") ;;
  let tile_dir := os_path_join output_dir source_name in
  os_makedirs tile_dir ;;
  let vrt_path := vrt_path_of output_dir tif_file in
  log INFO "Creating Web Mercator VRT..." ;;
  subprocess_run (gdalwarp_argv resampling tif_file vrt_path) true ;;
  log INFO ("Generating tiles for zoom levels " +:+ str_of_Z min_zoom
              +:+ " to " +:+ str_of_Z max_zoom +:+ "...") ;;
  subprocess_run
    (gdal2tiles_argv min_zoom max_zoom resampling gdal_format vrt_path tile_dir)
    true ;;
  try_except (os_remove vrt_path) is_OSError
    (fun _ => log WARNING ("Could not remove temporary file " +:+ vrt_path)) ;;
  let processed_sources := processed_sources ++ [source_name] in
  log INFO ("Completed processing " +:+ source_name) ;;
  ret processed_sources.

(** [process_with_gdal_cli]. *)
Definition process_with_gdal_cli (input_dir output_dir : string)
           (min_zoom max_zoom : Z) (output_format resampling_method : string)
  : M (list string) :=
  available <-
    try_except
      (subprocess_run ["gdal2tiles.py"; "--version"] true ;; ret true)
      (fun e => is_SubprocessError e || is_FileNotFoundError e)
      (fun _ =>
         log ERROR "gdal2tiles.py not found. Please install GDAL command-line tools." ;;
         log ERROR "You can install GDAL tools with 'conda install -c conda-forge gdal'" ;;
         ret false) ;;
  if negb available then ret [] else
  names <- os_listdir input_dir ;;
  let tif_files := map (os_path_join input_dir) (List.filter is_tif_name names) in
  if is_empty tif_files then
    log WARNING ("No .tif files found in " +:+ input_dir) ;;
    ret []
  else
  let resampling := default "cubic" (resampling_map !! resampling_method) in
  let gdal_format := default "PNG" (format_map !! lower output_format) in
  for_each tif_files []
    (fun tif_file processed_sources =>
       try_except
         (process_one_tif output_dir min_zoom max_zoom resampling gdal_format
            tif_file processed_sources)
         is_Exception
         (fun e =>
            log ERROR ("Error processing " +:+ tif_file +:+ ": " +:+ str_exn w e) ;;
            ret processed_sources)).

(** [main] of [raster_tiles.py]; the value returned is handed to
    [sys.exit]. *)
Definition main (args : Args) : M Z :=
  os_makedirs (input_dir args) ;;
  os_makedirs (output_dir args) ;;
  let run_cli :=
    process_with_gdal_cli (input_dir args) (output_dir args) (min_zoom args)
      (max_zoom args) (format args) (resampling args) in
  processed_sources <-
    (if negb (serve_only args) then
       processed_sources <-
         (if RASTER_TILER_AVAILABLE w && negb (force_cli args) then
            log INFO "Using Python GDAL through RasterTiler" ;;
            match raster_tiler w args with
            | inr sources => ret sources
            | inl msg =>
                log ERROR ("Error using RasterTiler: " +:+ msg) ;;
                log INFO "Falling back to command-line GDAL tools" ;;
                run_cli
            end
          else
            log INFO "Using command-line GDAL tools" ;;
            run_cli) ;;
       (if negb (is_empty processed_sources) then
          log INFO ("Successfully processed " +:+ str_of_Z (len processed_sources)
                      +:+ " source(s): " +:+ join ", " processed_sources) ;;
          log INFO ("Tiles are available in " +:+ abspath w (output_dir args))
        else
          log WARNING "No sources were processed") ;;
       ret processed_sources
     else ret []) ;;
  found <-
    (if serve_only args then
       names <- os_listdir (output_dir args) ;;
       d <- get_dirs ;;
       let processed_sources :=
         List.filter (fun n => os_path_isdir d (os_path_join (output_dir args) n))
                     names in
       if is_empty processed_sources then
         log ERROR ("No tile sources found in " +:+ output_dir args) ;;
         ret None
       else
         log INFO ("Found " +:+ str_of_Z (len processed_sources)
                     +:+ " source(s) to serve: " +:+ join ", " processed_sources) ;;
         ret (Some processed_sources)
     else ret (Some processed_sources)) ;;
  match found with
  | None => ret 1
  | Some processed_sources =>
      html_path <- generate_html_viewer processed_sources (output_dir args)
                     (port args) ;;
      log INFO ("Generated HTML viewer at " +:+ html_path) ;;
      emit (OpenBrowser ("file://" +:+ abspath w html_path)) ;;
      start_server (output_dir args) (port args) ;;
      ret 0
  end.

(** *** [raster_tiles_v2.py] *)

(** [check_gdal_command_line]. *)
Definition check_gdal_command_line : M bool :=
  try_except
    (r <- subprocess_run ["gdal_translate"; "--version"] false ;;
     ret (r.1.1 =? 0))
    is_FileNotFoundError
    (fun _ => ret false).

Definition gdal2tiles_cmd (input_file output_dir : string) (min_zoom max_zoom : Z)
           (format resampling : string) : list string :=
  [ "gdal2tiles.py";
    "--zoom=" +:+ str_of_Z min_zoom +:+ "-" +:+ str_of_Z max_zoom;
    "--resampling=" +:+ resampling;
    "--webviewer=none" ]
  ++ (if negb (String.eqb (lower format) "png")
      then ["--format=" +:+ format] else [])
  ++ [input_file; output_dir].

(** [process_raster_cli]. *)
Definition process_raster_cli (input_file output_dir : string)
           (min_zoom max_zoom : Z) (format resampling : string) : M bool :=
  os_makedirs output_dir ;;
  let cmd := gdal2tiles_cmd input_file output_dir min_zoom max_zoom
               format resampling in
  log INFO ("Running: " +:+ join " " cmd) ;;
  try_except
    (r <- subprocess_run cmd false ;;
     let '(returncode, stdout, stderr) := r in
     for_each stdout tt (fun line _ => log DEBUG (strip line)) ;;
     if negb (returncode =? 0) then
       log ERROR ("gdal2tiles.py failed with code " +:+ str_of_Z returncode
                    +:+ ": " +:+ stderr) ;;
       ret false
     else ret true)
    is_Exception
    (fun e =>
       log ERROR ("Error running gdal2tiles.py: " +:+ str_exn w e) ;;
       ret false).

(** [process_raster_python]. *)
Definition process_raster_python (input_file output_dir : string)
           (min_zoom max_zoom : Z) (format resampling : string) : M bool :=
  if negb (HAS_GDAL w) then
    log ERROR "GDAL Python bindings are not available. Cannot process using Python API." ;;
    ret false
  else
    log INFO ("Processing " +:+ input_file +:+ " using GDAL Python bindings") ;;
    process_raster_cli input_file output_dir min_zoom max_zoom format resampling.

(** The enumeration step of [main]. *)
Definition find_tif_files (args : Args2) : M (list string) :=
  match single_file args with
  | Some name =>
      let p := pathlib_child w (input_dir2 args) name in
      emit (Exists p) ;;
      if negb (path_exists w p) then
        log ERROR ("Specified file " +:+ p +:+ " does not exist") ;;
        sys_exit 1
      else ret [p]
  | None => path_glob_tif (input_dir2 args)
  end.

(** [main] of [raster_tiles_v2.py]; it always leaves through [sys.exit]. *)
Definition main2 (args : Args2) : M unit :=
  has_gdal_cli <- check_gdal_command_line ;;
  if negb (HAS_GDAL w) && negb has_gdal_cli then
    log ERROR "Neither GDAL Python bindings nor command-line tools are available. Cannot proceed." ;;
    sys_exit 1
  else
  log INFO ("Processing GeoTIFFs from " +:+ input_dir2 args) ;;
  log INFO ("Output directory: " +:+ output_dir2 args) ;;
  log INFO ("Zoom levels: " +:+ str_of_Z (min_zoom2 args) +:+ " to "
              +:+ str_of_Z (max_zoom2 args)) ;;
  log INFO ("Format: " +:+ format2 args) ;;
  log INFO ("Resampling: " +:+ resampling2 args) ;;
  match single_file args with
  | Some name => log INFO ("Processing only file: " +:+ name)
  | None => ret tt
  end ;;
  os_makedirs (output_dir2 args) ;;
  tif_files <- find_tif_files args ;;
  if is_empty tif_files then
    log ERROR ("No .tif files found in " +:+ input_dir2 args) ;;
    sys_exit 1
  else
  log INFO ("Found " +:+ str_of_Z (len tif_files) +:+ " .tif files to process") ;;
  success_count <-
    for_each tif_files 0
      (fun tif_file success_count =>
         log INFO ("Processing " +:+ tif_file) ;;
         success <-
           (if HAS_GDAL w then
              process_raster_python tif_file (output_dir2 args) (min_zoom2 args)
                (max_zoom2 args) (format2 args) (resampling2 args)
            else
              process_raster_cli tif_file (output_dir2 args) (min_zoom2 args)
                (max_zoom2 args) (format2 args) (resampling2 args)) ;;
         ret (if success then success_count + 1 else success_count)) ;;
  log INFO ("Processed " +:+ str_of_Z success_count +:+ " of "
              +:+ str_of_Z (len tif_files) +:+ " files successfully") ;;
  if success_count =? len tif_files then
    log INFO "All files processed successfully" ;;
    sys_exit 0
  else
    log WARNING ("Failed to process " +:+ str_of_Z (len tif_files - success_count)
                   +:+ " files") ;;
    sys_exit 1.

End Scripts.

(** *** Observations on a run *)

(** The argument vectors of the commands started, in order. *)
Definition runs (tr : list Event) : list (list string) :=
  flat_map (fun ev => match ev with Run argv => [argv] | _ => [] end) tr.

(** The paths handed to [os.remove]. *)
Definition removed (tr : list Event) : list string :=
  flat_map (fun ev => match ev with Remove p => [p] | _ => [] end) tr.

(** The paths handed to [os.makedirs]. *)
Definition created_dirs (tr : list Event) : list string :=
  flat_map (fun ev => match ev with Makedirs p => [p] | _ => [] end) tr.

(** The messages logged at level ERROR. *)
Definition errors_logged (tr : list Event) : list string :=
  flat_map (fun ev => match ev with Log ERROR msg => [msg] | _ => [] end) tr.

(** The command is an invocation of the executable [name]. *)
Definition is_command (name : string) (argv : list string) : bool :=
  String.eqb (hd EmptyString argv) name.

(** The state a script starts in: the directories found, nothing done. *)
Definition initial (d : gmap string (list string)) : State := mkState d [].

End Driver.

(* ===================================================================== *)
(** ** What a run is expected to look like, file by file *)
(* ===================================================================== *)

Module Expected.
Import PyStr Driver.

(** The command exits with status 0. *)
Definition succeeds (w : World) (argv : list string) : bool :=
  match spawn w argv with
  | Exited rc _ _ => rc =? 0
  | NotFound => false
  end.

(** The exception [subprocess.run(argv, check=True)] raises otherwise. *)
Definition run_error (w : World) (argv : list string) : Exn :=
  match spawn w argv with
  | Exited rc _ _ => CalledProcessError argv rc
  | NotFound => FileNotFoundError (hd EmptyString argv)
  end.

Definition ensure_dir (path : string) (d : gmap string (list string))
  : gmap string (list string) :=
  match d !! path with
  | Some _ => d
  | None => <[path := []]> d
  end.

Section PerFile.
Variable w : World.
Variables (output_dir : string) (min_zoom max_zoom : Z).
Variables (resampling gdal_format : string).

Definition tile_dir_of (tif_file : string) : string :=
  os_path_join output_dir (source_name_of tif_file).

Definition warp_of (tif_file : string) : list string :=
  gdalwarp_argv resampling tif_file (vrt_path_of w output_dir tif_file).

Definition tiles_of (tif_file : string) : list string :=
  gdal2tiles_argv w min_zoom max_zoom resampling gdal_format
    (vrt_path_of w output_dir tif_file) (tile_dir_of tif_file).

(** Both steps of the file exit with status 0. *)
Definition file_ok (tif_file : string) : bool :=
  succeeds w (warp_of tif_file) && succeeds w (tiles_of tif_file).

Definition error_line (tif_file : string) (e : Exn) : string :=
  "Error processing " +:+ tif_file +:+ ": " +:+ str_exn w e.

(** The effects of one iteration of the loop of
    [process_with_gdal_cli], by the outcome of the two commands. *)
Definition file_events (tif_file : string) : list Event :=
  let source_name := source_name_of tif_file in
  let vrt_path := vrt_path_of w output_dir tif_file in
  [ Log INFO ("Processing " +:+ source_name +:+ "...");
    Makedirs (tile_dir_of tif_file);
    Log INFO "Creating Web Mercator VRT...";
    Run (warp_of tif_file) ]
  ++ (if succeeds w (warp_of tif_file) then
        [ Log INFO ("Generating tiles for zoom levels " +:+ str_of_Z min_zoom
                      +:+ " to " +:+ str_of_Z max_zoom +:+ "...");
          Run (tiles_of tif_file) ]
        ++ (if succeeds w (tiles_of tif_file) then
              [ Remove vrt_path ]
              ++ (if remove_ok w vrt_path then []
                  else [ Log WARNING ("Could not remove temporary file "
                                        +:+ vrt_path) ])
              ++ [ Log INFO ("Completed processing " +:+ source_name) ]
            else
              [ Log ERROR (error_line tif_file (run_error w (tiles_of tif_file))) ])
      else
        [ Log ERROR (error_line tif_file (run_error w (warp_of tif_file))) ]).

(** The exception that ends the iteration of a file that is not ok. *)
Definition failure_of (tif_file : string) : Exn :=
  if succeeds w (warp_of tif_file) then run_error w (tiles_of tif_file)
  else run_error w (warp_of tif_file).

(** The commands started for one file. *)
Definition file_runs (tif_file : string) : list (list string) :=
  warp_of tif_file
    :: (if succeeds w (warp_of tif_file) then [tiles_of tif_file] else []).

End PerFile.

(** The files [process_with_gdal_cli] enumerates in a directory listing. *)
Definition enumerated (input_dir : string) (names : list string) : list string :=
  map (os_path_join input_dir) (List.filter is_tif_name names).

Definition chosen_resampling (resampling_method : string) : string :=
  default "cubic" (resampling_map !! resampling_method).

Definition chosen_format (output_format : string) : string :=
  default "PNG" (format_map !! lower output_format).

Definition probe : list string := ["gdal2tiles.py"; "--version"].

(** *** The second driver *)

Definition probe2 : list string := ["gdal_translate"; "--version"].

(** The names [Path(input_dir).glob('*.tif')] matches. *)
Definition is_glob_tif_name (f : string) : bool := endswith f ".tif".

(** The files the second driver enumerates. *)
Definition enumerated2 (w : World) (args : Args2) (d : gmap string (list string))
  : list string :=
  match single_file args with
  | Some name =>
      let p := pathlib_child w (input_dir2 args) name in
      if path_exists w p then [p] else []
  | None =>
      map (pathlib_child w (input_dir2 args))
          (List.filter is_glob_tif_name (default [] (d !! input_dir2 args)))
  end.

Definition cmd2 (args : Args2) (tif_file : string) : list string :=
  gdal2tiles_cmd tif_file (output_dir2 args) (min_zoom2 args) (max_zoom2 args)
    (format2 args) (resampling2 args).

(** What [process_raster_cli] logs at level ERROR for a file: nothing
    when the command exits with status 0. *)
Definition cli_errors (w : World) (cmd : list string) : list string :=
  match spawn w cmd with
  | Exited rc _ err =>
      if rc =? 0 then []
      else ["gdal2tiles.py failed with code " +:+ str_of_Z rc +:+ ": " +:+ err]
  | NotFound =>
      ["Error running gdal2tiles.py: "
         +:+ str_exn w (FileNotFoundError (hd EmptyString cmd))]
  end.

Definition cli_stdout (w : World) (cmd : list string) : list string :=
  match spawn w cmd with
  | Exited _ out _ => out
  | NotFound => []
  end.

(** The effects of one call of [process_raster_cli]. *)
Definition cli_events (w : World) (output_dir : string) (cmd : list string)
  : list Event :=
  [ Makedirs output_dir; Log INFO ("Running: " +:+ join " " cmd); Run cmd ]
  ++ map (fun line => Log DEBUG (strip line)) (cli_stdout w cmd)
  ++ map (Log ERROR) (cli_errors w cmd).

(** The effects of one iteration of the loop of the second driver. *)
Definition file_events2 (w : World) (args : Args2) (tif_file : string)
  : list Event :=
  [ Log INFO ("Processing " +:+ tif_file) ]
  ++ (if HAS_GDAL w
      then [ Log INFO ("Processing " +:+ tif_file +:+ " using GDAL Python bindings") ]
      else [])
  ++ cli_events w (output_dir2 args) (cmd2 args tif_file).

Definition successes2 (w : World) (args : Args2) (files : list string) : Z :=
  len (List.filter (fun f => succeeds w (cmd2 args f)) files).

(** The effects of [main] of the second driver from the enumeration on. *)
Definition batch_events2 (w : World) (args : Args2) (files : list string)
  : list Event :=
  if is_empty files then
    [ Log ERROR ("No .tif files found in " +:+ input_dir2 args) ]
  else
    [ Log INFO ("Found " +:+ str_of_Z (len files) +:+ " .tif files to process") ]
    ++ flat_map (file_events2 w args) files
    ++ [ Log INFO ("Processed " +:+ str_of_Z (successes2 w args files) +:+ " of "
                     +:+ str_of_Z (len files) +:+ " files successfully") ]
    ++ (if successes2 w args files =? len files
        then [ Log INFO "All files processed successfully" ]
        else [ Log WARNING ("Failed to process "
                              +:+ str_of_Z (len files - successes2 w args files)
                              +:+ " files") ]).

(** The availability gate at the top of [main]. *)
Definition gate2 (w : World) : bool := HAS_GDAL w || succeeds w probe2.

(** The run the second driver reports as a full success. *)
Definition full_success2 (w : World) (args : Args2) (d : gmap string (list string))
  : bool :=
  gate2 w
  && negb (is_empty (enumerated2 w args d))
  && forallb (fun f => succeeds w (cmd2 args f)) (enumerated2 w args d).

(** All the effects of a run of the second driver. *)
Definition main2_events (w : World) (args : Args2) (d : gmap string (list string))
  : list Event :=
  Run probe2
  :: (if gate2 w then
        [ Log INFO ("Processing GeoTIFFs from " +:+ input_dir2 args);
          Log INFO ("Output directory: " +:+ output_dir2 args);
          Log INFO ("Zoom levels: " +:+ str_of_Z (min_zoom2 args) +:+ " to "
                      +:+ str_of_Z (max_zoom2 args));
          Log INFO ("Format: " +:+ format2 args);
          Log INFO ("Resampling: " +:+ resampling2 args) ]
        ++ match single_file args with
           | Some name => [ Log INFO ("Processing only file: " +:+ name) ]
           | None => []
           end
        ++ [ Makedirs (output_dir2 args) ]
        ++ match single_file args with
           | Some name =>
               let p := pathlib_child w (input_dir2 args) name in
               Exists p
               :: (if path_exists w p then batch_events2 w args [p]
                   else [ Log ERROR ("Specified file " +:+ p +:+ " does not exist") ])
           | None =>
               Glob (input_dir2 args) "*.tif"
               :: batch_events2 w args (enumerated2 w args d)
           end
      else
        [ Log ERROR "Neither GDAL Python bindings nor command-line tools are available. Cannot proceed." ]).

(** The directories after the loop of [process_with_gdal_cli]. *)
Definition dirs_after (out : string) (files : list string)
           (d : gmap string (list string)) : gmap string (list string) :=
  fold_left (fun d f => ensure_dir (tile_dir_of out f) d) files d.

(** What [process_with_gdal_cli] logs when its probe fails. *)
Definition probe_failure_log : list Event :=
  [ Log ERROR "gdal2tiles.py not found. Please install GDAL command-line tools.";
    Log ERROR "You can install GDAL tools with 'conda install -c conda-forge gdal'" ].

(** What [main] of [raster_tiles.py] returns once it serves. *)
Definition server_outcome (w : World) : Outcome Z :=
  match server_stop w with
  | KeyboardInterrupt => Ok 0
  | AddressInUse => Raise (OSError "Address already in use")
  end.

(** The sources [main] of [raster_tiles.py] serves in serve-only mode. *)
Definition served_sources (args : Args) (d : gmap string (list string))
  : list string :=
  let d' := ensure_dir (output_dir args) (ensure_dir (input_dir args) d) in
  List.filter (fun n => os_path_isdir d' (os_path_join (output_dir args) n))
              (default [] (d' !! output_dir args)).

(** The exit status of [raster_tiles.py]. *)
Definition exit_status_main (w : World) (args : Args) (d : gmap string (list string))
  : Z :=
  if serve_only args && is_empty (served_sources args d) then 1
  else match server_stop w with
       | KeyboardInterrupt => 0
       | AddressInUse => 1
       end.

End Expected.

(* ===================================================================== *)
(** ** Concrete runs used below *)
(* ===================================================================== *)

Module Scenario.
Import PyStr Driver.

Definition no_output : ProcResult := Exited 0 [] EmptyString.

(** An input directory with three rasters under different spellings of
    the extension and one file that is not a raster. *)
Definition mixed_dir : gmap string (list string) :=
  {[ "in" := ["a.tif"; "b.tiff"; "C.TIF"; "notes.txt"] ]}.

Definition base_world (tools : list string -> ProcResult) (has_gdal : bool) : World :=
  mkWorld tools (fun _ => true) (fun _ => 1700000000) (Some 4) (fun _ => false)
          (fun d name => d +:+ "/" +:+ name) (fun p => "/srv/" +:+ p)
          (fun _ => "error") KeyboardInterrupt false (fun _ => inl "unavailable")
          has_gdal.

(** Every GDAL command is installed and succeeds. *)
Definition healthy : World := base_world (fun _ => no_output) false.

(** No GDAL command is installed, and no Python bindings either. *)
Definition no_gdal : World := base_world (fun _ => NotFound) false.

(** [gdalwarp] works, the tiling step exits with status 1. *)
Definition tiling_fails : World :=
  base_world (fun argv =>
                match argv with
                | "gdal2tiles.py" :: "--version" :: _ => no_output
                | "gdal2tiles.py" :: _ => Exited 1 [] "ERROR 4"
                | _ => no_output
                end) false.

(** Only [b.tiff] fails, in its reprojection step. *)
Definition one_bad_file : World :=
  base_world (fun argv =>
                match argv with
                | "gdalwarp" :: _ =>
                    if bool_decide ("in/b.tiff" ∈ argv) then Exited 2 [] "ERROR 1"
                    else no_output
                | _ => no_output
                end) false.

Definition default_args : Args :=
  mkArgs "in" "out" 0 14 "png" "cubic" 8090 false false false.

Definition default_args2 : Args2 :=
  mkArgs2 "in" "out" 8 14 "png" "lanczos" false None.

End Scenario.

(* ===================================================================== *)
(** ** Further definitions: paths, the request log, the library's own
       handler, and more observations on a run *)
(* ===================================================================== *)

Module Paths.
Import PyStr.

(** The character does not occur in the string. *)
Fixpoint no_char (c : ascii) (s : string) : bool :=
  match s with
  | EmptyString => true
  | String d r => negb (Ascii.eqb d c) && no_char c r
  end.

(** A directory entry: a name without a slash. *)
Definition is_entry_name (f : string) : bool := no_char "/" f.

End Paths.

(** *** The text of the viewer, piece by piece *)

Module ViewerText.
Import PyStr Viewer.

(** The layer blocks of the sources, one after the other. *)
Fixpoint layers_text (sources : list string) (port : Z) : string :=
  match sources with
  | [] => EmptyString
  | source :: rest => html_layer source port +:+ layers_text rest port
  end.

(** What stands before and after the definition of a layer in its block. *)
Definition layer_open : string := nl +:+ "        ".

Definition layer_close : string :=
  unlines [ ", {";
            "            minZoom: 0,";
            "            maxZoom: 18,";
            "            attribution: 'Generated Raster Tiles'";
            "        });";
            "        " ].

End ViewerText.

(** *** The request log of [cors_server.py] *)

Module CorsLog.
Import PyStr.

(** The arguments [log_message] receives are strings or integers: the
    library passes [(requestline, str(code), str(size))] from
    [log_request] and [(code, message)] from [send_error]. *)
Inductive PyVal :=
| PStr (s : string)
| PInt (n : Z).

(** What [log_message] can raise before it reaches the inherited method. *)
Inductive LogExn := IndexError | AttributeError.

Definition esc : string := String (ascii_of_nat 27) EmptyString.
Definition green : string := esc +:+ "[92m".
Definition yellow : string := esc +:+ "[93m".
Definition red : string := esc +:+ "[91m".
Definition reset_color : string := esc +:+ "[0m".

(** The [if]/[elif] chain on [args[1]], for a string. *)
Definition status_color (status : string) : string :=
  if String.eqb status "200" then green
  else if startswith status "4" then yellow
  else if startswith status "5" then red
  else reset_color.

(** [CORSHTTPRequestHandler.log_message(format, *args)]: the exception it
    raises, or the arguments it hands to the inherited [log_message].
    [args[1]] of a shorter tuple raises [IndexError]; an integer there is
    not equal to ['200'] and has no [startswith]. *)
Definition log_message (format : string) (args : list PyVal)
  : LogExn + (string * list PyVal) :=
  match args !! 1%nat with
  | None => inl IndexError
  | Some (PInt _) => inl AttributeError
  | Some (PStr status) =>
      let colored_args :=
        <[1%nat := PStr (status_color status +:+ status +:+ reset_color)]> args in
      inr (format, colored_args)
  end.

(** What the colour of a three-digit status code should be. *)
Definition class_color (code : Z) : string :=
  if code =? 200 then green
  else if (400 <=? code) && (code <=? 499) then yellow
  else if (500 <=? code) && (code <=? 599) then red
  else reset_color.

(** The call [log_request(code)] makes, with the request line and
    [size = '-']. *)
Definition log_request_args (requestline : string) (code : Z) : list PyVal :=
  [PStr requestline; PStr (str_of_Z code); PStr "-"].

End CorsLog.

(** *** The handlers next to the library's own [end_headers] *)

Module HttpBase.
Import Http.

(** The same calls on a plain [SimpleHTTPRequestHandler], whose
    [end_headers] is the inherited one. *)
Definition run_call_base (c : Call) (h : Handler) : Handler :=
  match c with
  | CallSendResponse code => send_response code h
  | CallSendHeader k x => send_header k x h
  | CallEndHeaders => base_end_headers h
  | CallWrite data => wfile_write data h
  | CallFs path => fs_access path h
  end.

Fixpoint run_calls_base (cs : list Call) (h : Handler) : Handler :=
  match cs with
  | [] => h
  | c :: cs' => run_calls_base cs' (run_call_base c h)
  end.

(** A chunk with the three CORS headers appended to its header block. *)
Definition add_cors (v : Variant) (c : Chunk) : Chunk :=
  match c with
  | HeaderBlock lines => HeaderBlock (lines ++ cors_headers v)
  | Body data => Body data
  end.

(** The handler of a subclass and the plain handler, the same calls
    behind them: same buffer, same effects, and the subclass has written
    the same chunks with the CORS headers added to each header block. *)
Definition mirrors (v : Variant) (h hb : Handler) : Prop :=
  headers_buffer h = headers_buffer hb
  /\ wfile h = map (add_cors v) (wfile hb)
  /\ effects h = effects hb
  /\ server_version h = server_version hb
  /\ date h = date hb.

(** Several requests handled one after the other by one handler object
    (a kept-alive connection). *)
Fixpoint handle_all (v : Variant) (inherited : Request -> list Call)
         (reqs : list Request) (h : Handler) : Handler :=
  match reqs with
  | [] => h
  | req :: rest => handle_all v inherited rest (handle v inherited req h)
  end.

(** The header blocks one request is answered with. *)
Definition blocks_of (inherited : Request -> list Call) (req : Request) : nat :=
  if String.eqb (command req) "OPTIONS" then 1%nat
  else count_end_headers (inherited req).

End HttpBase.

(** *** More observations on a run of a driver *)

Module Observed.
Import PyStr Driver Expected.

(** The files written, with their content. *)
Definition writes (tr : list Event) : list (string * string) :=
  flat_map (fun ev => match ev with WriteFile p c => [(p, c)] | _ => [] end) tr.

(** The ports served on. *)
Definition served (tr : list Event) : list Z :=
  flat_map (fun ev => match ev with Serve p => [p] | _ => [] end) tr.

(** The directories listed. *)
Definition listed (tr : list Event) : list string :=
  flat_map (fun ev => match ev with Listdir p => [p] | _ => [] end) tr.

(** The messages logged at level WARNING. *)
Definition warnings_logged (tr : list Event) : list string :=
  flat_map (fun ev => match ev with Log WARNING msg => [msg] | _ => [] end) tr.

(** The effects of the end of [main] of [raster_tiles.py]: the viewer is
    written, announced and opened, then the server is started. *)
Definition serve_events (w : World) (sources : list string) (out : string)
           (port : Z) : list Event :=
  let html_path := Viewer.html_path out in
  [ WriteFile html_path (Viewer.html_content sources port);
    Log INFO ("Generated HTML viewer at " +:+ html_path);
    OpenBrowser ("file://" +:+ abspath w html_path);
    Chdir out ]
  ++ match server_stop w with
     | KeyboardInterrupt =>
         [ Log INFO ("Serving raster tiles at http://localhost:" +:+ str_of_Z port);
           Log INFO "Press Ctrl+C to stop the server";
           Serve port;
           Log INFO "Server stopped" ]
     | AddressInUse => []
     end.

(** [main] takes the [RasterTiler] branch. *)
Definition uses_tiler (w : World) (args : Args) : bool :=
  RASTER_TILER_AVAILABLE w && negb (force_cli args).

(** The directories once [main] has made sure of its two. *)
Definition ensured (args : Args) (d : gmap string (list string))
  : gmap string (list string) :=
  ensure_dir (output_dir args) (ensure_dir (input_dir args) d).

(** [process_with_gdal_cli] on the arguments of [main], from a state with
    nothing done yet. *)
Definition cli_of (w : World) (args : Args) (d : gmap string (list string))
  : Outcome (list string) * State :=
  process_with_gdal_cli w (input_dir args) (output_dir args) (min_zoom args)
    (max_zoom args) (format args) (resampling args) (initial d).

(** [main] falls back on, or goes straight to, the command-line path. *)
Definition runs_cli (w : World) (args : Args) : bool :=
  match raster_tiler w args with
  | inr _ => negb (uses_tiler w args)
  | inl _ => true
  end.

(** The sources [main] hands to the viewer in processing mode. *)
Definition processed (w : World) (args : Args) (d : gmap string (list string))
  : list string :=
  if runs_cli w args then
    match (cli_of w args (ensured args d)).1 with
    | Ok sources => sources
    | Raise _ => []
    end
  else
    match raster_tiler w args with
    | inr sources => sources
    | inl _ => []
    end.

(** What [main] logs and does between the creation of its directories and
    the summary of the processing. *)
Definition processing_events (w : World) (args : Args)
           (d : gmap string (list string)) : list Event :=
  let cli := trace (cli_of w args (ensured args d)).2 in
  if uses_tiler w args then
    Log INFO "Using Python GDAL through RasterTiler"
    :: match raster_tiler w args with
       | inr _ => []
       | inl msg =>
           [ Log ERROR ("Error using RasterTiler: " +:+ msg);
             Log INFO "Falling back to command-line GDAL tools" ] ++ cli
       end
  else Log INFO "Using command-line GDAL tools" :: cli.

(** The summary [main] logs after the processing. *)
Definition summary_events (w : World) (args : Args) (sources : list string)
  : list Event :=
  if negb (is_empty sources) then
    [ Log INFO ("Successfully processed " +:+ str_of_Z (len sources)
                  +:+ " source(s): " +:+ join ", " sources);
      Log INFO ("Tiles are available in " +:+ abspath w (output_dir args)) ]
  else [ Log WARNING "No sources were processed" ].

(** The directories after the processing of [main]. *)
Definition dirs_processed (w : World) (args : Args) (d : gmap string (list string))
  : gmap string (list string) :=
  if runs_cli w args then dirs (cli_of w args (ensured args d)).2
  else ensured args d.

(** The same command line with [--force-cli]. *)
Definition with_force_cli (args : Args) : Args :=
  mkArgs (input_dir args) (output_dir args) (min_zoom args) (max_zoom args)
         (format args) (resampling args) (port args) (serve_only args)
         (verbose args) true.

(** No GDAL command is installed. *)
Definition nothing_installed (w : World) : Prop :=
  forall argv, spawn w argv = NotFound.

End Observed.

(** ** More concrete worlds and command lines *)

Module Scenario2.
Import PyStr Driver.

(** [RasterTiler] can be imported but fails; the commands work. *)
Definition tiler_fails : World :=
  mkWorld (fun _ => Scenario.no_output) (fun _ => true) (fun _ => 1700000000)
          (Some 4) (fun _ => false)
          (fun d name => d +:+ "/" +:+ name) (fun p => "/srv/" +:+ p)
          (fun _ => "error") KeyboardInterrupt true
          (fun _ => inl "No module named osgeo") false.

(** Every path exists and every command succeeds. *)
Definition all_present : World :=
  mkWorld (fun _ => Scenario.no_output) (fun _ => true) (fun _ => 1700000000)
          (Some 4) (fun _ => true)
          (fun d name => d +:+ "/" +:+ name) (fun p => "/srv/" +:+ p)
          (fun _ => "error") KeyboardInterrupt false
          (fun _ => inl "unavailable") false.

(** The Python bindings can be imported, no GDAL command is installed. *)
Definition bindings_only : World := Scenario.base_world (fun _ => NotFound) true.

Definition serve_only_args : Args :=
  mkArgs "in" "out" 0 14 "png" "cubic" 8090 true false false.

(** [--single-file notes.txt]: a name the glob would not match. *)
Definition single_file_args : Args2 :=
  mkArgs2 "in" "out" 8 14 "png" "lanczos" false (Some "notes.txt").

End Scenario2.

(* ===================================================================== *)
(** ** Properties of the request handlers *)
(* ===================================================================== *)

Module HttpProofs.
Import Http.

Lemma wfile_send_header k x h : wfile (send_header k x h) = wfile h.
Proof. reflexivity. Qed.

Lemma wfile_send_response code h : wfile (send_response code h) = wfile h.
Proof. reflexivity. Qed.

(** What the override writes: the buffered lines followed by the three
    CORS headers, as one block. *)
Lemma wfile_end_headers v h :
  wfile (end_headers v h)
  = wfile h ++ [HeaderBlock (headers_buffer h ++ cors_headers v)].
Proof.
  unfold end_headers, base_end_headers, send_header, cors_headers; simpl.
  by rewrite <- !app_assoc.
Qed.

Lemma carries_cors_block v buf : carries_cors v (HeaderBlock (buf ++ cors_headers v)).
Proof. intros l Hl. apply elem_of_app. by right. Qed.

Lemma run_call_keeps_cors v c h :
  Forall (carries_cors v) (wfile h) ->
  Forall (carries_cors v) (wfile (run_call v c h)).
Proof.
  intros Hh. destruct c; cbn [run_call]; try done.
  - rewrite wfile_end_headers. apply Forall_app. split; [done|].
    constructor; [apply carries_cors_block | constructor].
  - simpl. apply Forall_app. split; [done|]. by repeat constructor.
Qed.

Lemma run_calls_keeps_cors v cs : forall h,
  Forall (carries_cors v) (wfile h) ->
  Forall (carries_cors v) (wfile (run_calls v cs h)).
Proof.
  induction cs as [|c cs IH]; intros h Hh; simpl; [done|].
  apply IH. by apply run_call_keeps_cors.
Qed.

Lemma count_blocks_run_call v c h :
  count_blocks (run_call v c h)
  = (count_blocks h + count_end_headers [c])%nat.
Proof.
  unfold count_blocks, count_end_headers.
  destruct c; cbn [run_call]; try (simpl; lia).
  - rewrite wfile_end_headers, List.filter_app, length_app. simpl. lia.
  - simpl. rewrite List.filter_app, length_app. simpl. lia.
Qed.

Lemma count_blocks_run_calls v cs : forall h,
  count_blocks (run_calls v cs h) = (count_blocks h + count_end_headers cs)%nat.
Proof.
  induction cs as [|c cs IH]; intros h; simpl.
  - unfold count_end_headers. simpl. lia.
  - rewrite IH, count_blocks_run_call. unfold count_end_headers. simpl.
    destruct c; simpl; lia.
Qed.



End HttpProofs.

(* ===================================================================== *)
(** ** Properties of the viewer document *)
(* ===================================================================== *)

Module ViewerProofs.
Import PyStr Viewer.


End ViewerProofs.

(* ===================================================================== *)
(** ** Properties of the batch drivers *)
(* ===================================================================== *)

Module DriverProofs.
Import PyStr Driver Expected.

Ltac run_monad :=
  cbv [bind ret raise try_except emit log get_dirs set_dirs
       subprocess_run os_makedirs os_remove os_listdir os_chdir sys_exit
       dirs trace].

Lemma state_eta st : mkState (dirs st) (trace st) = st.
Proof. by destruct st. Qed.

Section Runs.
Variable w : World.

(** *** One iteration of the loop of [process_with_gdal_cli] *)

Lemma iteration_spec out mn mx rs gf f acc st :
  try_except (process_one_tif w out mn mx rs gf f acc) is_Exception
    (fun e => log ERROR ("Error processing " +:+ f +:+ ": " +:+ str_exn w e) ;;
              ret acc) st
  = (Ok (if file_ok w out mn mx rs gf f then acc ++ [source_name_of f] else acc),
     mkState (ensure_dir (tile_dir_of out f) (dirs st))
             (trace st ++ file_events w out mn mx rs gf f)).
Proof.
  unfold process_one_tif, file_ok, file_events, succeeds, run_error, error_line,
    ensure_dir, warp_of, tiles_of, tile_dir_of.
  destruct st as [d tr]. run_monad.
  set (td := os_path_join out (source_name_of f)).
  set (vrt := vrt_path_of w out f).
  set (warp := gdalwarp_argv rs f vrt).
  set (tiles := gdal2tiles_argv w mn mx rs gf vrt td).
  destruct (d !! td) as [names|]; cbn [dirs trace];
    (destruct (spawn w warp) as [rc1 o1 e1|]; cbn [andb negb dirs trace];
     [destruct (rc1 =? 0); cbn [andb negb dirs trace is_Exception];
      [destruct (spawn w tiles) as [rc2 o2 e2|]; cbn [andb negb dirs trace];
       [destruct (rc2 =? 0); cbn [andb negb dirs trace is_Exception];
        [destruct (remove_ok w vrt); cbn [is_OSError dirs trace]|]|]|]|]);
    cbn [is_Exception dirs trace]; rewrite <- ?app_assoc; reflexivity.
Qed.

(** *** The whole loop: no iteration stops it *)

Lemma loop_spec out mn mx rs gf files : forall acc st,
  for_each files acc
    (fun tif_file processed_sources =>
       try_except
         (process_one_tif w out mn mx rs gf tif_file processed_sources)
         is_Exception
         (fun e =>
            log ERROR ("Error processing " +:+ tif_file +:+ ": " +:+ str_exn w e) ;;
            ret processed_sources)) st
  = (Ok (acc ++ map source_name_of (List.filter (file_ok w out mn mx rs gf) files)),
     mkState (dirs_after out files (dirs st))
             (trace st ++ flat_map (file_events w out mn mx rs gf) files)).
Proof.
  induction files as [|f rest IH]; intros acc st.
  - simpl. unfold ret. by rewrite !app_nil_r, state_eta.
  - cbn [for_each]. unfold bind at 1. rewrite iteration_spec, IH.
    cbn [dirs trace List.filter flat_map fold_left dirs_after].
    f_equal.
    + f_equal. destruct (file_ok w out mn mx rs gf f); cbn [map].
      * by rewrite <- app_assoc.
      * done.
    + f_equal. by rewrite <- app_assoc.
Qed.

(** *** [process_with_gdal_cli], case by case *)

Lemma cli_tool_missing ind out mn mx fmt rsm st :
  succeeds w probe = false ->
  process_with_gdal_cli w ind out mn mx fmt rsm st
  = (Ok [], mkState (dirs st) (trace st ++ Run probe :: probe_failure_log)).
Proof.
  intros Hp. unfold process_with_gdal_cli, succeeds, probe in *.
  destruct st as [d tr]. run_monad.
  destruct (spawn w _) as [rc o e|]; cbn [andb negb].
  - rewrite Hp. cbn [negb is_SubprocessError orb].
    rewrite <- !app_assoc. reflexivity.
  - cbn [is_SubprocessError is_FileNotFoundError orb negb].
    rewrite <- !app_assoc. reflexivity.
Qed.

Lemma cli_no_directory ind out mn mx fmt rsm st :
  succeeds w probe = true ->
  dirs st !! ind = None ->
  process_with_gdal_cli w ind out mn mx fmt rsm st
  = (Raise (FileNotFoundError ind),
     mkState (dirs st) (trace st ++ [Run probe; Listdir ind])).
Proof.
  intros Hp Hd. unfold process_with_gdal_cli, succeeds, probe in *.
  destruct st as [d tr]. cbn [dirs] in Hd. run_monad.
  destruct (spawn w _) as [rc o e|]; [|done].
  rewrite Hp. cbn [andb negb]. rewrite Hd.
  rewrite <- !app_assoc. reflexivity.
Qed.

Lemma cli_run ind out mn mx fmt rsm st names :
  succeeds w probe = true ->
  dirs st !! ind = Some names ->
  let files := enumerated ind names in
  let rs := chosen_resampling rsm in
  let gf := chosen_format fmt in
  process_with_gdal_cli w ind out mn mx fmt rsm st
  = (Ok (map source_name_of (List.filter (file_ok w out mn mx rs gf) files)),
     mkState (dirs_after out files (dirs st))
             (trace st ++ [Run probe; Listdir ind]
                ++ (if is_empty files
                    then [Log WARNING ("No .tif files found in " +:+ ind)]
                    else flat_map (file_events w out mn mx rs gf) files))).
Proof.
  intros Hp Hd files rs gf.
  unfold process_with_gdal_cli.
  fold (enumerated ind names) in files.
  unfold bind at 1.
  assert (Hprobe :
    try_except (subprocess_run w ["gdal2tiles.py"; "--version"] true ;; ret true)
      (fun e => is_SubprocessError e || is_FileNotFoundError e)
      (fun _ =>
         log ERROR "gdal2tiles.py not found. Please install GDAL command-line tools." ;;
         log ERROR "You can install GDAL tools with 'conda install -c conda-forge gdal'" ;;
         ret false) st
    = (Ok true, mkState (dirs st) (trace st ++ [Run probe]))).
  { unfold succeeds, probe in *. destruct st as [d tr]. run_monad.
    destruct (spawn w _) as [rc o e|]; [|done]. by rewrite Hp. }
  rewrite Hprobe. cbn [negb].
  unfold bind at 1.
  assert (Hls : os_listdir ind (mkState (dirs st) (trace st ++ [Run probe]))
                = (Ok names, mkState (dirs st) (trace st ++ [Run probe; Listdir ind]))).
  { destruct st as [d tr]. cbn [dirs] in Hd. run_monad. rewrite Hd.
    by rewrite <- !app_assoc. }
  rewrite Hls.
  fold (enumerated ind names). fold files.
  fold (chosen_resampling rsm). fold rs.
  fold (chosen_format fmt). fold gf.
  destruct (is_empty files) eqn:He.
  - destruct files as [|f rest]; [|done].
    run_monad. by rewrite <- !app_assoc.
  - rewrite loop_spec. cbn [dirs trace app].
    by rewrite <- !app_assoc.
Qed.

(** *** The second driver *)

Lemma check_spec st :
  check_gdal_command_line w st
  = (Ok (succeeds w probe2), mkState (dirs st) (trace st ++ [Run probe2])).
Proof.
  unfold check_gdal_command_line, succeeds, probe2.
  destruct st as [d tr]. run_monad.
  by destruct (spawn w _) as [rc o e|].
Qed.

Lemma debug_lines_spec lines : forall st,
  for_each lines tt (fun line _ => log DEBUG (strip line)) st
  = (Ok tt, mkState (dirs st)
                    (trace st ++ map (fun line => Log DEBUG (strip line)) lines)).
Proof.
  induction lines as [|l rest IH]; intros [d tr].
  - simpl. unfold ret. by rewrite app_nil_r.
  - cbn [for_each]. unfold bind at 1. unfold log at 1, emit at 1.
    rewrite IH. cbn [dirs trace map]. by rewrite <- app_assoc.
Qed.

Lemma ensure_dir_lookup p d : is_Some (ensure_dir p d !! p).
Proof.
  unfold ensure_dir. destruct (d !! p) eqn:H.
  - by rewrite H.
  - by rewrite lookup_insert_eq.
Qed.

Lemma ensure_dir_present p d : is_Some (d !! p) -> ensure_dir p d = d.
Proof. intros [x Hx]. unfold ensure_dir. by rewrite Hx. Qed.

Lemma ensure_dir_keeps p q d : is_Some (d !! q) -> is_Some (ensure_dir p d !! q).
Proof.
  intros H. unfold ensure_dir. destruct (d !! p) eqn:Hp; [done|].
  destruct (decide (p = q)) as [->|Hne].
  - by rewrite lookup_insert_eq.
  - by rewrite lookup_insert_ne.
Qed.

Lemma makedirs_spec p st :
  os_makedirs p st
  = (Ok tt, mkState (ensure_dir p (dirs st)) (trace st ++ [Makedirs p])).
Proof.
  destruct st as [d tr]. unfold ensure_dir. run_monad.
  by destruct (d !! p).
Qed.

Lemma cli_spec f out mn mx fmt rs st :
  let cmd := gdal2tiles_cmd f out mn mx fmt rs in
  process_raster_cli w f out mn mx fmt rs st
  = (Ok (succeeds w cmd),
     mkState (ensure_dir out (dirs st)) (trace st ++ cli_events w out cmd)).
Proof.
  intros cmd. unfold process_raster_cli. fold cmd.
  unfold bind at 1. rewrite makedirs_spec.
  unfold bind at 1, log at 1, emit at 1. cbn [dirs trace].
  unfold try_except, bind at 1, subprocess_run, bind at 1, emit at 1.
  cbn [dirs trace].
  unfold cli_events, cli_errors, cli_stdout, succeeds.
  destruct (spawn w cmd) as [rc o e|]; cbn [andb].
  - unfold ret at 1, bind at 1. rewrite debug_lines_spec. cbn [dirs trace].
    destruct (rc =? 0); cbn [negb map].
    + unfold ret. rewrite <- !app_assoc, app_nil_r. reflexivity.
    + run_monad. rewrite <- !app_assoc. reflexivity.
  - unfold raise at 1. cbn [is_Exception map]. run_monad.
    rewrite <- !app_assoc. reflexivity.
Qed.

Lemma python_spec f out mn mx fmt rs st :
  let cmd := gdal2tiles_cmd f out mn mx fmt rs in
  process_raster_python w f out mn mx fmt rs st
  = if HAS_GDAL w then
      (Ok (succeeds w cmd),
       mkState (ensure_dir out (dirs st))
               (trace st
                  ++ Log INFO ("Processing " +:+ f +:+ " using GDAL Python bindings")
                  :: cli_events w out cmd))
    else
      (Ok false,
       mkState (dirs st)
               (trace st ++ [Log ERROR "GDAL Python bindings are not available. Cannot process using Python API."])).
Proof.
  intros cmd. unfold process_raster_python.
  destruct (HAS_GDAL w); cbn [negb].
  - unfold bind at 1, log at 1, emit at 1. rewrite cli_spec.
    cbn [dirs trace]. fold cmd. by rewrite <- app_assoc.
  - destruct st. reflexivity.
Qed.

Lemma loop2_spec args files : forall acc st,
  is_Some (dirs st !! output_dir2 args) ->
  for_each files acc
    (fun tif_file success_count =>
       log INFO ("Processing " +:+ tif_file) ;;
       success <-
         (if HAS_GDAL w then
            process_raster_python w tif_file (output_dir2 args) (min_zoom2 args)
              (max_zoom2 args) (format2 args) (resampling2 args)
          else
            process_raster_cli w tif_file (output_dir2 args) (min_zoom2 args)
              (max_zoom2 args) (format2 args) (resampling2 args)) ;;
       ret (if success then success_count + 1 else success_count)) st
  = (Ok (acc + successes2 w args files),
     mkState (dirs st) (trace st ++ flat_map (file_events2 w args) files)).
Proof.
  unfold successes2, len.
  induction files as [|f rest IH]; intros acc st Hout.
  - simpl. unfold ret. rewrite app_nil_r, state_eta. do 2 f_equal. lia.
  - cbn [for_each]. unfold bind at 1.
    unfold bind at 1, log at 1, emit at 1. cbn [dirs trace].
    unfold bind at 1.
    assert (Hstep :
      (if HAS_GDAL w then
         process_raster_python w f (output_dir2 args) (min_zoom2 args)
           (max_zoom2 args) (format2 args) (resampling2 args)
       else
         process_raster_cli w f (output_dir2 args) (min_zoom2 args)
           (max_zoom2 args) (format2 args) (resampling2 args))
        (mkState (dirs st) (trace st ++ [Log INFO ("Processing " +:+ f)]))
      = (Ok (succeeds w (cmd2 args f)),
         mkState (dirs st) (trace st ++ file_events2 w args f))).
    { unfold file_events2. destruct (HAS_GDAL w) eqn:Hg.
      - rewrite python_spec, Hg. cbn [dirs trace].
        rewrite ensure_dir_present by done.
        unfold cmd2. by rewrite <- !app_assoc.
      - rewrite cli_spec. cbn [dirs trace].
        rewrite ensure_dir_present by done.
        unfold cmd2. by rewrite <- !app_assoc. }
    rewrite Hstep. unfold ret at 1. rewrite IH by done.
    cbn [dirs trace flat_map List.filter].
    rewrite <- app_assoc. do 2 f_equal.
    destruct (succeeds w (cmd2 args f)); cbn [length]; lia.
Qed.

Lemma all_succeed_count (p : string -> bool) (l : list string) :
  (len (List.filter p l) =? len l) = forallb p l.
Proof.
  unfold len.
  assert (Hle : forall l', (length (List.filter p l') <= length l')%nat).
  { induction l' as [|x l' IH]; simpl; [lia|]. destruct (p x); simpl; lia. }
  induction l as [|x l IH]; [done|].
  cbn [List.filter forallb]. specialize (Hle l).
  destruct (p x); cbn [length andb].
  - rewrite <- IH.
    destruct (Z.eqb_spec (Z.of_nat (S (length (List.filter p l))))
                         (Z.of_nat (S (length l))));
      destruct (Z.eqb_spec (Z.of_nat (length (List.filter p l)))
                           (Z.of_nat (length l)));
      try done; lia.
  - apply Z.eqb_neq. lia.
Qed.

Lemma batch2_spec args files st :
  is_Some (dirs st !! output_dir2 args) ->
  (if is_empty files then
     log ERROR ("No .tif files found in " +:+ input_dir2 args) ;;
     sys_exit 1
   else
     log INFO ("Found " +:+ str_of_Z (len files) +:+ " .tif files to process") ;;
     success_count <-
       for_each files 0
         (fun tif_file success_count =>
            log INFO ("Processing " +:+ tif_file) ;;
            success <-
              (if HAS_GDAL w then
                 process_raster_python w tif_file (output_dir2 args) (min_zoom2 args)
                   (max_zoom2 args) (format2 args) (resampling2 args)
               else
                 process_raster_cli w tif_file (output_dir2 args) (min_zoom2 args)
                   (max_zoom2 args) (format2 args) (resampling2 args)) ;;
            ret (if success then success_count + 1 else success_count)) ;;
     log INFO ("Processed " +:+ str_of_Z success_count +:+ " of "
                 +:+ str_of_Z (len files) +:+ " files successfully") ;;
     if success_count =? len files then
       log INFO "All files processed successfully" ;;
       sys_exit 0
     else
       log WARNING ("Failed to process " +:+ str_of_Z (len files - success_count)
                      +:+ " files") ;;
       sys_exit 1) st
  = (@Raise unit
       (SystemExit (if negb (is_empty files)
                       && forallb (fun f => succeeds w (cmd2 args f)) files
                    then 0 else 1)),
     mkState (dirs st) (trace st ++ batch_events2 w args files)).
Proof.
  intros Hout. unfold batch_events2.
  destruct (is_empty files) eqn:He; cbn [negb andb].
  - destruct st. reflexivity.
  - unfold bind at 1, log at 1, emit at 1.
    unfold bind at 1. rewrite loop2_spec by done.
    cbn [dirs trace]. rewrite Z.add_0_l.
    unfold bind at 1, log at 1, emit at 1. cbn [dirs trace].
    rewrite <- (all_succeed_count (fun f => succeeds w (cmd2 args f)) files).
    fold (successes2 w args files).
    destruct (successes2 w args files =? len files).
    + run_monad. rewrite <- !app_assoc. reflexivity.
    + run_monad. rewrite <- !app_assoc. reflexivity.
Qed.

Lemma listing_after_ensure p q (d : gmap string (list string)) :
  default [] (ensure_dir p d !! q) = default [] (d !! q).
Proof.
  unfold ensure_dir. destruct (d !! p) eqn:Hp; [done|].
  destruct (decide (p = q)) as [->|Hne].
  - by rewrite lookup_insert_eq, Hp.
  - by rewrite lookup_insert_ne.
Qed.

Lemma find_tif_files_spec args st :
  is_Some (dirs st !! output_dir2 args) ->
  (tif_files <- find_tif_files w args ;;
   if is_empty tif_files then
     log ERROR ("No .tif files found in " +:+ input_dir2 args) ;;
     sys_exit 1
   else
     log INFO ("Found " +:+ str_of_Z (len tif_files) +:+ " .tif files to process") ;;
     success_count <-
       for_each tif_files 0
         (fun tif_file success_count =>
            log INFO ("Processing " +:+ tif_file) ;;
            success <-
              (if HAS_GDAL w then
                 process_raster_python w tif_file (output_dir2 args) (min_zoom2 args)
                   (max_zoom2 args) (format2 args) (resampling2 args)
               else
                 process_raster_cli w tif_file (output_dir2 args) (min_zoom2 args)
                   (max_zoom2 args) (format2 args) (resampling2 args)) ;;
            ret (if success then success_count + 1 else success_count)) ;;
     log INFO ("Processed " +:+ str_of_Z success_count +:+ " of "
                 +:+ str_of_Z (len tif_files) +:+ " files successfully") ;;
     if success_count =? len tif_files then
       log INFO "All files processed successfully" ;;
       sys_exit 0
     else
       log WARNING ("Failed to process " +:+ str_of_Z (len tif_files - success_count)
                      +:+ " files") ;;
       sys_exit 1) st
  = (@Raise unit
       (SystemExit
          (if negb (is_empty (enumerated2 w args (dirs st)))
              && forallb (fun f => succeeds w (cmd2 args f))
                   (enumerated2 w args (dirs st))
           then 0 else 1)),
     mkState (dirs st)
       (trace st
          ++ match single_file args with
             | Some name =>
                 let p := pathlib_child w (input_dir2 args) name in
                 Exists p
                 :: (if path_exists w p then batch_events2 w args [p]
                     else [ Log ERROR ("Specified file " +:+ p +:+ " does not exist") ])
             | None =>
                 Glob (input_dir2 args) "*.tif"
                 :: batch_events2 w args (enumerated2 w args (dirs st))
             end)).
Proof.
  intros Hout. unfold bind at 1, find_tif_files, enumerated2.
  destruct (single_file args) as [name|].
  - unfold bind at 1, emit at 1. cbn [dirs trace].
    destruct (path_exists w (pathlib_child w (input_dir2 args) name)); cbn [negb].
    + unfold ret at 1. rewrite batch2_spec by done.
      cbn [dirs trace]. by rewrite <- app_assoc.
    + destruct st. run_monad. cbn [is_empty negb andb forallb].
      by rewrite <- !app_assoc.
  - unfold path_glob_tif, bind at 1, emit at 1, bind at 1, get_dirs at 1.
    unfold ret at 1. cbn [dirs trace].
    rewrite batch2_spec by done.
    cbn [dirs trace]. unfold is_glob_tif_name. by rewrite <- app_assoc.
Qed.

(** The second driver, end to end. *)
Lemma main2_spec args st :
  main2 w args st
  = (Raise (SystemExit (if full_success2 w args (dirs st) then 0 else 1)),
     mkState (if gate2 w then ensure_dir (output_dir2 args) (dirs st) else dirs st)
             (trace st ++ main2_events w args (dirs st))).
Proof.
  unfold main2, full_success2, main2_events.
  unfold bind at 1. rewrite check_spec.
  assert (Hgate : negb (HAS_GDAL w) && negb (succeeds w probe2) = negb (gate2 w)).
  { unfold gate2. by destruct (HAS_GDAL w), (succeeds w probe2). }
  rewrite Hgate.
  destruct (gate2 w); cbn [negb andb].
  - do 5 (unfold bind at 1, log at 1, emit at 1; cbn [dirs trace]).
    unfold bind at 1.
    assert (Hone :
      forall tr,
        match single_file args with
        | Some name => log INFO ("Processing only file: " +:+ name)
        | None => ret tt
        end (mkState (dirs st) tr)
        = (Ok tt, mkState (dirs st)
                    (tr ++ match single_file args with
                           | Some name => [Log INFO ("Processing only file: " +:+ name)]
                           | None => []
                           end))).
    { intros tr. destruct (single_file args); [done|].
      unfold ret. by rewrite app_nil_r. }
    rewrite Hone. unfold bind at 1. rewrite makedirs_spec. cbn [dirs trace].
    rewrite find_tif_files_spec by apply ensure_dir_lookup.
    cbn [dirs trace].
    assert (Henum : enumerated2 w args (ensure_dir (output_dir2 args) (dirs st))
                    = enumerated2 w args (dirs st)).
    { unfold enumerated2. destruct (single_file args); [done|].
      by rewrite listing_after_ensure. }
    rewrite Henum. f_equal. f_equal.
    rewrite <- !app_assoc. cbn [app]. reflexivity.
  - destruct st. run_monad. by rewrite <- !app_assoc.
Qed.

(** *** [main] of [raster_tiles.py] *)

Lemma dirs_after_keeps out files : forall d p,
  is_Some (d !! p) -> is_Some (dirs_after out files d !! p).
Proof.
  induction files as [|f rest IH]; intros d p Hp; [done|].
  cbn [dirs_after fold_left]. apply IH. by apply ensure_dir_keeps.
Qed.

(** The CLI path returns normally whenever the input directory exists,
    and removes no directory. *)
Lemma cli_total ind out mn mx fmt rsm st :
  is_Some (dirs st !! ind) ->
  exists ps tr d',
    process_with_gdal_cli w ind out mn mx fmt rsm st
    = (Ok ps, mkState d' (trace st ++ tr))
    /\ forall p, is_Some (dirs st !! p) -> is_Some (d' !! p).
Proof.
  intros [names Hn].
  destruct (succeeds w probe) eqn:Hp.
  - rewrite (cli_run ind out mn mx fmt rsm st names Hp Hn).
    do 3 eexists. split; [reflexivity|].
    intros p. apply dirs_after_keeps.
  - rewrite cli_tool_missing by done.
    do 3 eexists. split; [reflexivity|]. done.
Qed.

Lemma serve_tail ps out port st :
  is_Some (dirs st !! out) ->
  exists tr,
    (html_path <- generate_html_viewer ps out port ;;
     log INFO ("Generated HTML viewer at " +:+ html_path) ;;
     emit (OpenBrowser ("file://" +:+ abspath w html_path)) ;;
     start_server w out port ;;
     ret 0) st
    = (server_outcome w, mkState (dirs st) (trace st ++ tr)).
Proof.
  intros [names Hn]. destruct st as [d tr]. cbn [dirs] in Hn.
  unfold generate_html_viewer, start_server, server_outcome. run_monad.
  rewrite Hn.
  destruct (server_stop w); eexists; rewrite <- !app_assoc; reflexivity.
Qed.

Lemma bind_run {A B} (m : M A) (k : A -> M B) st :
  bind m k st
  = match m st with
    | (Ok a, st') => k a st'
    | (Raise e, st') => (Raise e, st')
    end.
Proof. reflexivity. Qed.

Lemma ret_run {A} (a : A) st : ret a st = (Ok a, st).
Proof. reflexivity. Qed.

Lemma log_run level msg st :
  log level msg st = (Ok tt, mkState (dirs st) (trace st ++ [Log level msg])).
Proof. reflexivity. Qed.

Lemma get_dirs_run st : get_dirs st = (Ok (dirs st), st).
Proof. reflexivity. Qed.

Lemma listdir_run p names st :
  dirs st !! p = Some names ->
  os_listdir p st = (Ok names, mkState (dirs st) (trace st ++ [Listdir p])).
Proof.
  intros H. unfold os_listdir. rewrite bind_run. unfold emit.
  rewrite bind_run, get_dirs_run. cbn [dirs]. by rewrite H.
Qed.

(** The processing block of [main]: it returns normally once the input
    directory exists, and removes no directory. *)
Lemma processing_block args st :
  is_Some (dirs st !! input_dir args) ->
  exists ps tr d',
    (processed_sources <-
       (if RASTER_TILER_AVAILABLE w && negb (force_cli args) then
          log INFO "Using Python GDAL through RasterTiler" ;;
          match raster_tiler w args with
          | inr sources => ret sources
          | inl msg =>
              log ERROR ("Error using RasterTiler: " +:+ msg) ;;
              log INFO "Falling back to command-line GDAL tools" ;;
              process_with_gdal_cli w (input_dir args) (output_dir args)
                (min_zoom args) (max_zoom args) (format args) (resampling args)
          end
        else
          log INFO "Using command-line GDAL tools" ;;
          process_with_gdal_cli w (input_dir args) (output_dir args)
            (min_zoom args) (max_zoom args) (format args) (resampling args)) ;;
     (if negb (is_empty processed_sources) then
        log INFO ("Successfully processed " +:+ str_of_Z (len processed_sources)
                    +:+ " source(s): " +:+ join ", " processed_sources) ;;
        log INFO ("Tiles are available in " +:+ abspath w (output_dir args))
      else
        log WARNING "No sources were processed") ;;
     ret processed_sources) st
    = (Ok ps, mkState d' (trace st ++ tr))
    /\ forall p, is_Some (dirs st !! p) -> is_Some (d' !! p).
Proof.
  intros Hin.
  assert (Hcli : forall tr0,
    exists ps tr d',
      process_with_gdal_cli w (input_dir args) (output_dir args)
        (min_zoom args) (max_zoom args) (format args) (resampling args)
        (mkState (dirs st) (trace st ++ tr0))
      = (Ok ps, mkState d' (trace st ++ tr))
      /\ forall p, is_Some (dirs st !! p) -> is_Some (d' !! p)).
  { intros tr0.
    destruct (cli_total (input_dir args) (output_dir args) (min_zoom args)
                (max_zoom args) (format args) (resampling args)
                (mkState (dirs st) (trace st ++ tr0)) Hin)
      as (ps & tr & d' & Hrun & Hkeep).
    exists ps, (tr0 ++ tr), d'. split; [|exact Hkeep].
    rewrite Hrun. cbn [trace]. by rewrite app_assoc. }
  assert (Hfirst : exists ps tr d',
    (if RASTER_TILER_AVAILABLE w && negb (force_cli args) then
       log INFO "Using Python GDAL through RasterTiler" ;;
       match raster_tiler w args with
       | inr sources => ret sources
       | inl msg =>
           log ERROR ("Error using RasterTiler: " +:+ msg) ;;
           log INFO "Falling back to command-line GDAL tools" ;;
           process_with_gdal_cli w (input_dir args) (output_dir args)
             (min_zoom args) (max_zoom args) (format args) (resampling args)
       end
     else
       log INFO "Using command-line GDAL tools" ;;
       process_with_gdal_cli w (input_dir args) (output_dir args)
         (min_zoom args) (max_zoom args) (format args) (resampling args)) st
    = (Ok ps, mkState d' (trace st ++ tr))
    /\ forall p, is_Some (dirs st !! p) -> is_Some (d' !! p)).
  { destruct (RASTER_TILER_AVAILABLE w && negb (force_cli args)).
    - rewrite bind_run, log_run.
      destruct (raster_tiler w args) as [msg|sources].
      + rewrite bind_run, log_run. rewrite bind_run, log_run. cbn [dirs trace].
        rewrite <- !app_assoc. apply Hcli.
      + rewrite ret_run. by do 3 eexists.
    - rewrite bind_run, log_run. cbn [dirs trace]. apply Hcli. }
  destruct Hfirst as (ps & tr & d' & Hrun & Hkeep).
  rewrite bind_run, Hrun.
  exists ps.
  destruct (negb (is_empty ps)).
  - exists (tr ++ [ Log INFO ("Successfully processed " +:+ str_of_Z (len ps)
                                +:+ " source(s): " +:+ join ", " ps);
                    Log INFO ("Tiles are available in "
                                +:+ abspath w (output_dir args)) ]), d'.
    split; [|exact Hkeep].
    rewrite bind_run. rewrite bind_run, log_run, log_run. cbn [dirs trace].
    rewrite ret_run. by rewrite <- !app_assoc.
  - exists (tr ++ [ Log WARNING "No sources were processed" ]), d'.
    split; [|exact Hkeep].
    rewrite bind_run, log_run, ret_run. cbn [dirs trace].
    by rewrite <- !app_assoc.
Qed.

Lemma main_spec args st :
  exists tr d',
    main w args st
    = (if serve_only args && is_empty (served_sources args (dirs st))
       then Ok 1 else server_outcome w,
       mkState d' (trace st ++ Makedirs (input_dir args)
                            :: Makedirs (output_dir args) :: tr))
    /\ is_Some (d' !! input_dir args)
    /\ is_Some (d' !! output_dir args).
Proof.
  unfold main, served_sources.
  rewrite bind_run, makedirs_spec.
  rewrite bind_run, makedirs_spec. cbn [dirs trace].
  set (d1 := ensure_dir (output_dir args) (ensure_dir (input_dir args) (dirs st))).
  assert (Hin : is_Some (d1 !! input_dir args)).
  { apply ensure_dir_keeps, ensure_dir_lookup. }
  assert (Hout : is_Some (d1 !! output_dir args)) by apply ensure_dir_lookup.
  rewrite <- app_assoc. cbn [app].
  set (s1 := mkState d1 (trace st ++ [Makedirs (input_dir args);
                                      Makedirs (output_dir args)])).
  assert (Hs1 : forall tr, trace s1 ++ tr
            = trace st ++ Makedirs (input_dir args) :: Makedirs (output_dir args) :: tr).
  { intros tr. subst s1. cbn [trace]. by rewrite <- app_assoc. }
  destruct (serve_only args) eqn:Hso; cbn [negb andb].
  - (* serve-only: list the output directory *)
    rewrite bind_run, ret_run.
    destruct Hout as [names Hnames].
    rewrite bind_run, bind_run, (listdir_run _ names) by exact Hnames.
    rewrite bind_run, get_dirs_run. cbn [dirs trace]. rewrite Hnames.
    cbn [default].
    destruct (is_empty _) eqn:He.
    + rewrite bind_run, log_run, ret_run, ret_run. cbn [dirs trace].
      exists [Listdir (output_dir args);
              Log ERROR ("No tile sources found in " +:+ output_dir args)], d1.
      split; [|by rewrite Hnames].
      rewrite <- Hs1. subst s1. cbn [trace]. by rewrite <- !app_assoc.
    + rewrite bind_run, log_run, ret_run. cbn [dirs trace].
      match goal with
      | |- context [bind (generate_html_viewer ?ps _ _) _ ?s] =>
          destruct (serve_tail ps (output_dir args) (port args) s)
            as [tr2 Htail]
      end.
      { subst s1. cbn [dirs]. by rewrite Hnames. }
      rewrite Htail. cbn [dirs trace].
      eexists _, d1. split; [|subst s1; cbn [dirs]; by rewrite Hnames].
      subst s1. cbn [dirs trace]. rewrite <- !app_assoc. reflexivity.
  - (* processing, then serving *)
    destruct (processing_block args s1 Hin) as (ps & tr & d2 & Hrun & Hkeep).
    rewrite bind_run, Hrun.
    rewrite bind_run, ret_run.
    destruct (serve_tail ps (output_dir args) (port args)
                (mkState d2 (trace s1 ++ tr))) as [tr2 Htail].
    { cbn [dirs]. by apply Hkeep. }
    rewrite Htail. cbn [dirs trace].
    eexists _, d2. split; [|split; by apply Hkeep].
    rewrite <- Hs1, <- !app_assoc. reflexivity.
Qed.

End Runs.
End DriverProofs.

(* ===================================================================== *)
(** ** The statements about the batch drivers *)
(* ===================================================================== *)

Module DriverClaims.
Import PyStr Driver Expected DriverProofs.

Lemma runs_app a b : runs (a ++ b) = runs a ++ runs b.
Proof. apply flat_map_app. Qed.

Lemma errors_app a b : errors_logged (a ++ b) = errors_logged a ++ errors_logged b.
Proof. apply flat_map_app. Qed.

Lemma created_app a b : created_dirs (a ++ b) = created_dirs a ++ created_dirs b.
Proof. apply flat_map_app. Qed.

Lemma obs_flat_map {A B} (obs : list Event -> list B) (ev : A -> list Event)
      (one : A -> list B) (xs : list A) :
  obs [] = [] ->
  (forall a b, obs (a ++ b) = obs a ++ obs b) ->
  (forall x, obs (ev x) = one x) ->
  obs (flat_map ev xs) = flat_map one xs.
Proof.
  intros Hnil Happ Hone. induction xs as [|x xs IH]; simpl; [done|].
  by rewrite Happ, Hone, IH.
Qed.

(** *** Projections of the per-file effects of [raster_tiles.py] *)

Lemma runs_file_events w out mn mx rs gf f :
  runs (file_events w out mn mx rs gf f) = file_runs w out mn mx rs gf f.
Proof.
  unfold file_events, file_runs.
  destruct (succeeds w (warp_of w out rs f)); [|done].
  destruct (succeeds w (tiles_of w out mn mx rs gf f)); [|done].
  by destruct (remove_ok w _).
Qed.

Lemma errors_file_events w out mn mx rs gf f :
  errors_logged (file_events w out mn mx rs gf f)
  = if file_ok w out mn mx rs gf f then []
    else [error_line w f (failure_of w out mn mx rs gf f)].
Proof.
  unfold file_events, file_ok, failure_of.
  destruct (succeeds w (warp_of w out rs f)); [|done].
  destruct (succeeds w (tiles_of w out mn mx rs gf f)); [|done].
  by destruct (remove_ok w _).
Qed.

Lemma removed_file_events w out mn mx rs gf f :
  removed (file_events w out mn mx rs gf f)
  = if file_ok w out mn mx rs gf f then [vrt_path_of w out f] else [].
Proof.
  unfold file_events, file_ok.
  destruct (succeeds w (warp_of w out rs f)); [|done].
  destruct (succeeds w (tiles_of w out mn mx rs gf f)); [|done].
  by destruct (remove_ok w _).
Qed.

Lemma warp_runs_of_files w out mn mx rs gf files :
  List.filter (is_command "gdalwarp") (flat_map (file_runs w out mn mx rs gf) files)
  = map (warp_of w out rs) files.
Proof.
  induction files as [|f rest IH]; [done|].
  cbn [flat_map map]. rewrite List.filter_app, IH.
  unfold file_runs. by destruct (succeeds w (warp_of w out rs f)).
Qed.

Lemma errors_of_files w out mn mx rs gf files :
  flat_map (fun f => if file_ok w out mn mx rs gf f then []
                     else [error_line w f (failure_of w out mn mx rs gf f)]) files
  = map (fun f => error_line w f (failure_of w out mn mx rs gf f))
        (List.filter (fun f => negb (file_ok w out mn mx rs gf f)) files).
Proof.
  induction files as [|f rest IH]; [done|].
  cbn [flat_map List.filter]. rewrite IH.
  by destruct (file_ok w out mn mx rs gf f).
Qed.

(** The trace of the CLI path of [raster_tiles.py] when the probe
    succeeds and the directory can be listed. *)
Lemma cli_trace w ind out mn mx fmt rsm d names :
  succeeds w probe = true ->
  d !! ind = Some names ->
  let files := enumerated ind names in
  let rs := chosen_resampling rsm in
  let gf := chosen_format fmt in
  let r := process_with_gdal_cli w ind out mn mx fmt rsm (initial d) in
  r.1 = Ok (map source_name_of (List.filter (file_ok w out mn mx rs gf) files))
  /\ runs (trace r.2) = probe :: flat_map (file_runs w out mn mx rs gf) files
  /\ errors_logged (trace r.2)
     = map (fun f => error_line w f (failure_of w out mn mx rs gf f))
           (List.filter (fun f => negb (file_ok w out mn mx rs gf f)) files)
  /\ removed (trace r.2)
     = map (vrt_path_of w out) (List.filter (file_ok w out mn mx rs gf) files).
Proof.
  intros Hp Hd files rs gf r. subst r.
  rewrite (cli_run w ind out mn mx fmt rsm (initial d) names Hp Hd).
  fold files rs gf. cbn [fst snd trace initial app].
  destruct (is_empty files) eqn:He.
  - destruct files; [|done]. by repeat split.
  - repeat split.
    + cbn [runs flat_map app]. f_equal.
      apply (obs_flat_map runs); [done | apply runs_app |].
      intros f. apply runs_file_events.
    + cbn [errors_logged flat_map app]. rewrite <- errors_of_files.
      apply (obs_flat_map errors_logged); [done | apply errors_app |].
      intros f. apply errors_file_events.
    + cbn [removed flat_map app].
      rewrite (obs_flat_map removed (file_events w out mn mx rs gf)
                 (fun f => if file_ok w out mn mx rs gf f
                           then [vrt_path_of w out f] else []));
        [| done | intros; apply flat_map_app | intros; apply removed_file_events].
      clear. induction files as [|f rest IH]; [done|].
      cbn [flat_map List.filter]. rewrite IH.
      by destruct (file_ok w out mn mx rs gf f).
Qed.

(** *** Projections of the effects of the second driver *)

Lemma runs_cli_events w out cmd : runs (cli_events w out cmd) = [cmd].
Proof.
  unfold cli_events. cbn [app runs flat_map]. f_equal.
  fold (runs (map (fun line => Log DEBUG (strip line)) (cli_stdout w cmd)
                ++ map (Log ERROR) (cli_errors w cmd))).
  rewrite runs_app.
  assert (H1 : forall l, runs (map (fun line => Log DEBUG (strip line)) l) = []).
  { induction l; [done|]. simpl. exact IHl. }
  assert (H2 : forall l, runs (map (Log ERROR) l) = []).
  { induction l; [done|]. simpl. exact IHl. }
  by rewrite H1, H2.
Qed.

Lemma errors_cli_events w out cmd :
  errors_logged (cli_events w out cmd) = cli_errors w cmd.
Proof.
  unfold cli_events. cbn [app errors_logged flat_map].
  fold (errors_logged (map (fun line => Log DEBUG (strip line)) (cli_stdout w cmd)
                ++ map (Log ERROR) (cli_errors w cmd))).
  rewrite errors_app.
  assert (H1 : forall l,
             errors_logged (map (fun line => Log DEBUG (strip line)) l) = []).
  { induction l; [done|]. simpl. exact IHl. }
  assert (H2 : forall l, errors_logged (map (Log ERROR) l) = l).
  { induction l; [done|]. simpl. by f_equal. }
  by rewrite H1, H2.
Qed.

Lemma created_cli_events w out cmd : created_dirs (cli_events w out cmd) = [out].
Proof.
  unfold cli_events. cbn [app created_dirs flat_map]. f_equal.
  fold (created_dirs (map (fun line => Log DEBUG (strip line)) (cli_stdout w cmd)
                ++ map (Log ERROR) (cli_errors w cmd))).
  rewrite created_app.
  assert (H1 : forall l,
             created_dirs (map (fun line => Log DEBUG (strip line)) l) = []).
  { induction l; [done|]. simpl. exact IHl. }
  assert (H2 : forall l, created_dirs (map (Log ERROR) l) = []).
  { induction l; [done|]. simpl. exact IHl. }
  by rewrite H1, H2.
Qed.

Lemma runs_file_events2 w args f : runs (file_events2 w args f) = [cmd2 args f].
Proof.
  unfold file_events2. rewrite !runs_app, runs_cli_events.
  by destruct (HAS_GDAL w).
Qed.

Lemma errors_file_events2 w args f :
  errors_logged (file_events2 w args f) = cli_errors w (cmd2 args f).
Proof.
  unfold file_events2. rewrite !errors_app, errors_cli_events.
  by destruct (HAS_GDAL w).
Qed.

Lemma created_file_events2 w args f :
  created_dirs (file_events2 w args f) = [output_dir2 args].
Proof.
  unfold file_events2. rewrite !created_app, created_cli_events.
  by destruct (HAS_GDAL w).
Qed.

Lemma runs_batch2 w args files :
  runs (batch_events2 w args files) = map (cmd2 args) files.
Proof.
  unfold batch_events2. destruct (is_empty files) eqn:He.
  - by destruct files.
  - rewrite !runs_app.
    rewrite (obs_flat_map runs (file_events2 w args) (fun f => [cmd2 args f]));
      [| done | apply runs_app | apply runs_file_events2].
    destruct (_ =? _); cbn [runs flat_map app]; rewrite app_nil_r;
      clear; induction files as [|f rest IH]; simpl; by f_equal.
Qed.

Lemma errors_batch2 w args files :
  files <> [] ->
  errors_logged (batch_events2 w args files)
  = flat_map (fun f => cli_errors w (cmd2 args f)) files.
Proof.
  intros Hne. unfold batch_events2. destruct files as [|f0 rest]; [done|].
  cbn [is_empty]. rewrite !errors_app.
  rewrite (obs_flat_map errors_logged (file_events2 w args)
             (fun f => cli_errors w (cmd2 args f)));
    [| done | apply errors_app | apply errors_file_events2].
  destruct (_ =? _); cbn [errors_logged flat_map app]; by rewrite app_nil_r.
Qed.

Lemma created_batch2 w args files :
  Forall (eq (output_dir2 args)) (created_dirs (batch_events2 w args files)).
Proof.
  unfold batch_events2. destruct (is_empty files); [constructor|].
  rewrite !created_app.
  rewrite (obs_flat_map created_dirs (file_events2 w args)
             (fun _ => [output_dir2 args]));
    [| done | apply created_app | apply created_file_events2].
  destruct (_ =? _); cbn [created_dirs flat_map app]; rewrite app_nil_r;
    clear; induction files as [|f rest IH]; simpl; by constructor.
Qed.

(** The commands the second driver starts: the probe, then one
    [gdal2tiles.py] per enumerated file if the gate lets the run go on. *)
Lemma runs_cons ev tr :
  runs (ev :: tr) = match ev with Run argv => [argv] | _ => [] end ++ runs tr.
Proof. reflexivity. Qed.

Lemma runs_nil : runs [] = [].
Proof. reflexivity. Qed.

Lemma runs_main2 w args d :
  runs (trace (main2 w args (initial d)).2)
  = probe2 :: (if gate2 w then map (cmd2 args) (enumerated2 w args d) else []).
Proof.
  rewrite main2_spec. cbn [snd trace initial dirs]. rewrite app_nil_l.
  unfold main2_events. rewrite runs_cons. cbn [app]. f_equal.
  destruct (gate2 w); [|reflexivity].
  repeat (rewrite runs_cons || rewrite runs_app || rewrite runs_nil). cbn [app].
  assert (H0 : runs match single_file args with
                    | Some name => [Log INFO ("Processing only file: " +:+ name)]
                    | None => []
                    end = []) by (by destruct (single_file args)).
  rewrite H0. cbn [app].
  unfold enumerated2. destruct (single_file args) as [name|].
  - rewrite runs_cons. cbn [app].
    destruct (path_exists w _); [|done]. apply runs_batch2.
  - rewrite runs_cons. cbn [app]. apply runs_batch2.
Qed.

Lemma created_cons ev tr :
  created_dirs (ev :: tr)
  = match ev with Makedirs p => [p] | _ => [] end ++ created_dirs tr.
Proof. reflexivity. Qed.

Lemma created_nil : created_dirs [] = [].
Proof. reflexivity. Qed.

Lemma errors_cons ev tr :
  errors_logged (ev :: tr)
  = match ev with Log ERROR msg => [msg] | _ => [] end ++ errors_logged tr.
Proof. reflexivity. Qed.

Lemma errors_nil : errors_logged [] = [].
Proof. reflexivity. Qed.

(** The second driver creates no directory but the output directory. *)
Lemma created_main2 w args d :
  Forall (eq (output_dir2 args)) (created_dirs (trace (main2 w args (initial d)).2)).
Proof.
  rewrite main2_spec. cbn [snd trace initial dirs]. rewrite app_nil_l.
  unfold main2_events. rewrite created_cons. cbn [app].
  destruct (gate2 w); [|constructor].
  repeat (rewrite created_cons || rewrite created_app || rewrite created_nil).
  cbn [app].
  assert (H0 : created_dirs match single_file args with
                            | Some name => [Log INFO ("Processing only file: " +:+ name)]
                            | None => []
                            end = []) by (by destruct (single_file args)).
  rewrite H0. cbn [app]. constructor; [done|].
  destruct (single_file args) as [name|]; rewrite created_cons; cbn [app].
  - destruct (path_exists w _); [apply created_batch2 | constructor].
  - apply created_batch2.
Qed.

Lemma dirs_main2 w args d :
  dirs (main2 w args (initial d)).2
  = if gate2 w then ensure_dir (output_dir2 args) d else d.
Proof. by rewrite main2_spec. Qed.

(** What the second driver logs as errors when the gate lets it go on and
    it globs at least one file: one line per file whose command does not
    exit with status 0. *)
Lemma errors_main2 w args d :
  gate2 w = true ->
  single_file args = None ->
  enumerated2 w args d <> [] ->
  errors_logged (trace (main2 w args (initial d)).2)
  = flat_map (fun f => cli_errors w (cmd2 args f)) (enumerated2 w args d).
Proof.
  intros Hg Hs Hne.
  rewrite main2_spec. cbn [snd trace initial dirs]. rewrite app_nil_l.
  unfold main2_events. rewrite Hg, Hs.
  repeat (rewrite errors_cons || rewrite errors_app || rewrite errors_nil).
  cbn [app]. by apply errors_batch2.
Qed.

Lemma cli_errors_iff w cmd :
  length (cli_errors w cmd) = if succeeds w cmd then 0%nat else 1%nat.
Proof.
  unfold cli_errors, succeeds. destruct (spawn w cmd) as [rc o e|]; [|done].
  by destruct (rc =? 0).
Qed.

Lemma exit_status_main2 w args d :
  exit_status (fun _ : unit => 0) (main2 w args (initial d)).1
  = if full_success2 w args d then 0 else 1.
Proof. by rewrite main2_spec. Qed.

Lemma exit_status_of_main w args d :
  exit_status id (main w args (initial d)).1 = exit_status_main w args d.
Proof.
  destruct (main_spec w args (initial d)) as (tr & d' & Hrun & _).
  rewrite Hrun. cbn [fst initial dirs]. unfold exit_status_main, server_outcome.
  destruct (serve_only args && is_empty (served_sources args d)); [done|].
  by destruct (server_stop w).
Qed.

Lemma unrecognised_resampling rsm :
  rsm ∉ ["nearest"; "bilinear"; "cubic"; "cubicspline"; "lanczos"; "average"; "mode"] ->
  resampling_map !! rsm = None.
Proof. intros H. by apply not_elem_of_list_to_map_1. Qed.

(* ------------------------------------------------------------------- *)
(** *** The claims *)
(* ------------------------------------------------------------------- *)








(** C6 (the failing run).  One raster [a.tif], [gdalwarp] exits with 0
    and writes to the temporary VRT path, [gdal2tiles.py] exits with 1.
    The file is skipped, and no removal of the VRT is ever attempted. *)
Theorem C6_vrt_left_behind_on_failure :
  let r := process_with_gdal_cli Scenario.tiling_fails "in" "out" 0 14 "png" "cubic"
             (initial {[ "in" := ["a.tif"] ]}) in
  r.1 = Ok []
  /\ runs (trace r.2)
     = [ ["gdal2tiles.py"; "--version"];
         ["gdalwarp"; "-t_srs"; "EPSG:3857"; "-r"; "cubic"; "-of"; "VRT";
          "in/a.tif"; "out/temp_web_mercator_a_1700000000.vrt"];
         ["gdal2tiles.py"; "--zoom"; "0-14"; "--resampling"; "cubic";
          "--webviewer"; "none"; "--tilesize"; "256"; "--processes"; "4";
          "--format"; "PNG"; "out/temp_web_mercator_a_1700000000.vrt"; "out/a"] ]
  /\ removed (trace r.2) = []
  /\ removed (trace (process_with_gdal_cli Scenario.healthy "in" "out" 0 14 "png"
                       "cubic" (initial {[ "in" := ["a.tif"] ]})).2)
     = ["out/temp_web_mercator_a_1700000000.vrt"].
Proof. vm_compute. repeat split. Qed.




(** C9 (counterexample).  The second driver hands an
    unrecognised resampling string to [gdal2tiles.py] as it is. *)
Lemma C9_counterexample :
  resampling_map !! "bogus" = None
  /\ runs (trace (process_raster_cli Scenario.healthy "in/a.tif" "out" 8 14 "png"
                    "bogus" (initial ∅)).2)
     = [ ["gdal2tiles.py"; "--zoom=8-14"; "--resampling=bogus";
          "--webviewer=none"; "in/a.tif"; "out"] ].
Proof. vm_compute. repeat split. Qed.

(** C9 (amended).  In [process_with_gdal_cli] a resampling string that is
    not a key of the method table is replaced by [cubic]: the run is the
    run for [cubic], state and result included, with [cubic] after [-r]
    of [gdalwarp] and after [--resampling] of [gdal2tiles.py], and no
    error is raised on its account.  [process_raster_cli] of the second
    driver does no such thing: it passes the string on unchanged as
    [--resampling=<string>]. *)
Theorem C9_unrecognised_resampling
  (w : World) (ind out : string) (mn mx : Z) (fmt rsm : string) (st : State)
  (f vrt td gf : string) :
  rsm ∉ ["nearest"; "bilinear"; "cubic"; "cubicspline"; "lanczos"; "average"; "mode"] ->
  chosen_resampling rsm = "cubic"
  /\ process_with_gdal_cli w ind out mn mx fmt rsm st
     = process_with_gdal_cli w ind out mn mx fmt "cubic" st
  /\ gdalwarp_argv (chosen_resampling rsm) f vrt
     = ["gdalwarp"; "-t_srs"; "EPSG:3857"; "-r"; "cubic"; "-of"; "VRT"; f; vrt]
  /\ gdal2tiles_argv w mn mx (chosen_resampling rsm) gf vrt td !! 4%nat = Some "cubic"
  /\ gdal2tiles_cmd f out mn mx fmt rsm !! 2%nat = Some ("--resampling=" +:+ rsm).
Proof.
  intros Hnot. pose proof (unrecognised_resampling rsm Hnot) as Hnone.
  assert (Hc : chosen_resampling rsm = "cubic").
  { unfold chosen_resampling. by rewrite Hnone. }
  split; [exact Hc|]. split.
  - unfold process_with_gdal_cli. rewrite Hnone.
    replace (resampling_map !! "cubic") with (Some "cubic") by (by vm_compute).
    reflexivity.
  - rewrite Hc. by repeat split.
Qed.

Lemma C9_witness :
  ("bogus" ∉ ["nearest"; "bilinear"; "cubic"; "cubicspline"; "lanczos"; "average";
              "mode"])
  /\ process_with_gdal_cli Scenario.healthy "in" "out" 0 14 "png" "bogus"
       (initial Scenario.mixed_dir)
     = process_with_gdal_cli Scenario.healthy "in" "out" 0 14 "png" "cubic"
         (initial Scenario.mixed_dir).
Proof.
  assert (H : "bogus" ∉ ["nearest"; "bilinear"; "cubic"; "cubicspline"; "lanczos";
                          "average"; "mode"]).
  { apply (bool_decide_unpack _). vm_compute. exact I. }
  split; [exact H|].
  exact (proj1 (proj2 (C9_unrecognised_resampling Scenario.healthy "in" "out" 0 14
                         "png" "bogus" (initial Scenario.mixed_dir)
                         "in/a.tif" "out/a.vrt" "out/a" "PNG" H))).
Defined.

(** C10.  With the Python bindings imported, [process_raster_python]
    returns what [process_raster_cli] returns for the same arguments,
    after running the same command and leaving the same directories;
    without them it returns [False], runs no command and creates no
    directory. *)
Theorem C10_python_path_is_cli_path
  (w : World) (input_file out : string) (mn mx : Z) (fmt rs : string) (st : State) :
  let py := process_raster_python w input_file out mn mx fmt rs st in
  let cli := process_raster_cli w input_file out mn mx fmt rs st in
  py.1 = (if HAS_GDAL w then cli.1 else Ok false)
  /\ runs (trace py.2) = (if HAS_GDAL w then runs (trace cli.2) else runs (trace st))
  /\ created_dirs (trace py.2)
     = (if HAS_GDAL w then created_dirs (trace cli.2) else created_dirs (trace st))
  /\ dirs py.2 = (if HAS_GDAL w then dirs cli.2 else dirs st).
Proof.
  intros py cli. subst py cli. rewrite python_spec, cli_spec.
  destruct (HAS_GDAL w); cbn [fst snd dirs trace].
  - repeat split.
    + by rewrite !runs_app, runs_cons.
    + by rewrite !created_app, created_cons.
  - repeat split.
    + by rewrite runs_app, runs_cons, runs_nil, app_nil_r.
    + by rewrite created_app, created_cons, created_nil, app_nil_r.
Qed.

End DriverClaims.

(* ===================================================================== *)
(** ** Facts about the string and path helpers *)
(* ===================================================================== *)

Module PathFacts.
Import PyStr Paths.

#[local] Arguments append _ _ : simpl nomatch.

Ltac str_step :=
  cbn [append String.length substring String.prefix lower no_char rfind_from].

Lemma append_nil_r (s : string) : s +:+ EmptyString = s.
Proof. induction s as [|c s IH]; str_step; [done|]. by rewrite IH. Qed.

Lemma append_assoc (a b c : string) : (a +:+ b) +:+ c = a +:+ (b +:+ c).
Proof. induction a as [|x a IH]; str_step; [done|]. by rewrite IH. Qed.

Lemma length_append (a b : string) :
  String.length (a +:+ b) = (String.length a + String.length b)%nat.
Proof. induction a as [|x a IH]; str_step; [done|]. by rewrite IH. Qed.

Lemma prefix_append (a b : string) : String.prefix a (a +:+ b) = true.
Proof.
  induction a as [|x a IH]; str_step; [by destruct b|].
  destruct (ascii_dec x x) as [_|n]; [exact IH | by elim n].
Qed.

Lemma substring_all (s : string) : substring 0 (String.length s) s = s.
Proof. induction s as [|c s IH]; str_step; [done|]. by rewrite IH. Qed.

(** Dropping a prefix: [(a + b)[len(a):] = b]. *)
Lemma substring_skip (a b : string) :
  substring (String.length a) (String.length b) (a +:+ b) = b.
Proof. induction a as [|x a IH]; str_step; [apply substring_all | exact IH]. Qed.

(** Keeping a prefix: [(a + b)[:len(a)] = a]. *)
Lemma substring_keep (a b : string) :
  substring 0 (String.length a) (a +:+ b) = a.
Proof.
  induction a as [|x a IH]; str_step.
  - by destruct b.
  - by rewrite IH.
Qed.

(** A string is its first [k] characters followed by the rest. *)
Lemma substring_split (s : string) : forall k,
  (k <= String.length s)%nat ->
  s = substring 0 k s +:+ substring k (String.length s - k) s.
Proof.
  induction s as [|c s IH]; intros k Hk.
  - cbn [String.length] in Hk. by replace k with 0%nat by lia.
  - destruct k as [|k].
    + by rewrite Nat.sub_0_r, substring_all.
    + cbn [String.length] in Hk. str_step. f_equal. apply IH. lia.
Qed.

Lemma endswith_append (a suffix : string) : endswith (a +:+ suffix) suffix = true.
Proof.
  unfold endswith. rewrite length_append.
  apply andb_true_intro. split.
  - apply Nat.leb_le. lia.
  - replace (String.length a + String.length suffix - String.length suffix)%nat
      with (String.length a) by lia.
    rewrite substring_skip. apply String.eqb_refl.
Qed.

Lemma endswith_inv (s suffix : string) :
  endswith s suffix = true -> exists a, s = a +:+ suffix.
Proof.
  unfold endswith. intros H. apply andb_prop in H as [Hle Heq].
  apply Nat.leb_le in Hle. apply String.eqb_eq in Heq.
  set (k := (String.length s - String.length suffix)%nat) in *.
  exists (substring 0 k s).
  assert (Hs : s = substring 0 k s +:+ substring k (String.length s - k) s)
    by (apply substring_split; lia).
  replace (String.length s - k)%nat with (String.length suffix) in Hs by lia.
  by rewrite Heq in Hs.
Qed.

Lemma lower_append (a b : string) : lower (a +:+ b) = lower a +:+ lower b.
Proof. induction a as [|x a IH]; str_step; [done|]. by rewrite IH. Qed.

Lemma lower_ascii_idem (c : ascii) : lower_ascii (lower_ascii c) = lower_ascii c.
Proof. destruct c as [[] [] [] [] [] [] [] []]; reflexivity. Qed.

Lemma lower_idem (s : string) : lower (lower s) = lower s.
Proof.
  induction s as [|c s IH]; str_step; [done|]. by rewrite lower_ascii_idem, IH.
Qed.

(** *** [rfind], [basename] and [join] *)

Lemma rfind_from_append c (s1 s2 : string) : forall i last,
  rfind_from c (s1 +:+ s2) i last
  = rfind_from c s2 (i + Z.of_nat (String.length s1)) (rfind_from c s1 i last).
Proof.
  induction s1 as [|d s1 IH]; intros i last; str_step.
  - by rewrite Z.add_0_r.
  - rewrite IH. f_equal. lia.
Qed.

Lemma rfind_from_absent c (s : string) : forall i last,
  no_char c s = true -> rfind_from c s i last = last.
Proof.
  induction s as [|d s IH]; intros i last H; [done|].
  cbn [no_char] in H. apply andb_prop in H as [Hd Hs].
  cbn [rfind_from]. apply negb_true_iff in Hd. rewrite Hd. by apply IH.
Qed.

(** Every path is slash-free, or a directory part, a slash and a slash-free
    last component. *)
Lemma last_component (p : string) :
  no_char "/" p = true
  \/ exists a f, p = a +:+ "/" +:+ f /\ no_char "/" f = true.
Proof.
  induction p as [|d p IH]; [by left|].
  destruct IH as [Hfree | (a & f & -> & Hf)].
  - destruct (Ascii.eqb d "/") eqn:Hd.
    + right. apply Ascii.eqb_eq in Hd as ->. by exists EmptyString, p.
    + left. cbn [no_char]. by rewrite Hd.
  - right. by exists (String d a), f.
Qed.

Lemma rfind_slash_of_split (a f : string) :
  no_char "/" f = true ->
  rfind "/" ((a +:+ "/") +:+ f) = Z.of_nat (String.length a).
Proof.
  intros Hf. unfold rfind.
  rewrite rfind_from_append, rfind_from_absent by done.
  rewrite rfind_from_append. reflexivity.
Qed.

Lemma basename_of_split (a f : string) :
  no_char "/" f = true -> os_path_basename (a +:+ "/" +:+ f) = f.
Proof.
  intros Hf. rewrite <- append_assoc.
  unfold os_path_basename, slice_from. rewrite rfind_slash_of_split by done.
  assert (Hn : Z.to_nat (Z.of_nat (String.length a) + 1) = String.length (a +:+ "/")).
  { rewrite length_append. cbn [String.length]. lia. }
  rewrite Hn.
  replace (String.length ((a +:+ "/") +:+ f) - String.length (a +:+ "/"))%nat
    with (String.length f) by (rewrite (length_append (a +:+ "/") f); lia).
  apply substring_skip.
Qed.

Lemma basename_of_name (f : string) :
  no_char "/" f = true -> os_path_basename f = f.
Proof.
  intros Hf. unfold os_path_basename, rfind, slice_from.
  rewrite rfind_from_absent by done. simpl Z.to_nat.
  rewrite Nat.sub_0_r. apply substring_all.
Qed.

Lemma no_char_not_prefix c (s : string) :
  no_char c s = true -> String.prefix (String c EmptyString) s = false.
Proof.
  destruct s as [|d s]; [done|]. cbn [no_char String.prefix].
  intros H. apply andb_prop in H as [Hd _]. apply negb_true_iff in Hd.
  destruct (ascii_dec c d) as [->|]; [|done].
  by rewrite Ascii.eqb_refl in Hd.
Qed.

Lemma basename_no_slash (p : string) : no_char "/" (os_path_basename p) = true.
Proof.
  destruct (last_component p) as [Hfree | (a & f & -> & Hf)].
  - by rewrite basename_of_name.
  - by rewrite basename_of_split.
Qed.

Lemma splitext_root_not_absolute (x : string) :
  startswith x "/" = false -> startswith (os_path_splitext_root x) "/" = false.
Proof.
  unfold os_path_splitext_root, slice_to, startswith. intros Hx.
  destruct (_ <? _); [|done].
  destruct (existsb _ _); [|done].
  generalize (Z.to_nat (rfind "." x)). intros n.
  destruct x as [|c x]; [destruct n; reflexivity|].
  destruct n as [|n]; [reflexivity|].
  cbn [substring String.prefix] in *.
  destruct (ascii_dec "/" c); [destruct x; discriminate Hx | reflexivity].
Qed.

Lemma source_name_not_absolute (tif_file : string) :
  startswith (Driver.source_name_of tif_file) "/" = false.
Proof.
  unfold Driver.source_name_of. apply splitext_root_not_absolute.
  apply no_char_not_prefix, basename_no_slash.
Qed.

Lemma join_under (a b : string) :
  startswith b "/" = false -> startswith (os_path_join a b) a = true.
Proof.
  intros Hb. unfold os_path_join. rewrite Hb.
  destruct (_ || _); unfold startswith; apply prefix_append.
Qed.

Lemma join_entry (ind f : string) :
  is_entry_name f = true -> os_path_basename (os_path_join ind f) = f.
Proof.
  intros Hf. unfold os_path_join, startswith.
  rewrite (no_char_not_prefix "/" f Hf).
  destruct (String.eqb ind EmptyString) eqn:He; cbn [orb].
  - apply String.eqb_eq in He as ->. by apply basename_of_name.
  - destruct (endswith ind "/") eqn:Hs.
    + apply endswith_inv in Hs as [a ->].
      rewrite append_assoc. by apply basename_of_split.
    + by apply basename_of_split.
Qed.

(** X1.  The extension filter of [process_with_gdal_cli] looks at the
    lower-cased name only, accepts exactly the names that end in [.tif] or
    [.tiff] once lower-cased, and accepts every name the glob [*.tif] of
    the second driver matches. *)
Theorem tif_filter_covers_glob (f : string) :
  Driver.is_tif_name (lower f) = Driver.is_tif_name f
  /\ (Driver.is_tif_name f = true
      <-> exists stem, lower f = stem +:+ ".tif" \/ lower f = stem +:+ ".tiff")
  /\ (Expected.is_glob_tif_name f = true -> Driver.is_tif_name f = true).
Proof.
  unfold Driver.is_tif_name, endswith_any, Expected.is_glob_tif_name.
  cbn [existsb]. rewrite lower_idem, orb_false_r.
  split; [done|]. split; [split|].
  - intros H. apply orb_prop in H as [H|H];
      apply endswith_inv in H as [stem Hstem]; exists stem; tauto.
  - intros [stem [H|H]]; rewrite H, !endswith_append; by rewrite ?orb_true_r.
  - intros H. apply endswith_inv in H as [stem ->].
    rewrite lower_append. change (lower ".tif") with ".tif".
    by rewrite endswith_append.
Qed.

Lemma tif_filter_covers_glob_witness :
  Expected.is_glob_tif_name "scene.tif" = true
  /\ Driver.is_tif_name "scene.tif" = true.
Proof.
  split; [reflexivity|].
  exact (proj2 (proj2 (tif_filter_covers_glob "scene.tif")) eq_refl).
Defined.

(** X2.  For a directory entry (a name without a slash) the source name,
    and with it the tile directory and the layer name, is the entry's name
    without its extension: it does not depend on the input directory the
    entry was found in. *)
Theorem source_name_ignores_directory (ind ind' out f : string) :
  is_entry_name f = true ->
  Driver.source_name_of (os_path_join ind f) = os_path_splitext_root f
  /\ Driver.source_name_of (os_path_join ind f)
     = Driver.source_name_of (os_path_join ind' f)
  /\ Expected.tile_dir_of out (os_path_join ind f)
     = os_path_join out (os_path_splitext_root f).
Proof.
  intros Hf. unfold Expected.tile_dir_of, Driver.source_name_of.
  by rewrite !join_entry.
Qed.

Lemma source_name_ignores_directory_witness :
  is_entry_name "scene.v2.tif" = true
  /\ Driver.source_name_of (os_path_join "data/in/" "scene.v2.tif") = "scene.v2".
Proof.
  split; [reflexivity|].
  rewrite (proj1 (source_name_ignores_directory "data/in/" "" "out" "scene.v2.tif"
                    eq_refl)).
  reflexivity.
Defined.

End PathFacts.

(* ===================================================================== *)
(** ** The request log of [cors_server.py] *)
(* ===================================================================== *)

Module CorsLogFacts.
Import PyStr CorsLog PathFacts.

Lemma status_colors_checked :
  forallb (fun n => String.eqb (status_color (str_of_Z (Z.of_nat n)))
                               (class_color (Z.of_nat n)))
          (seq 100 500) = true.
Proof. vm_compute. reflexivity. Qed.

(** X3.  [log_message] leaves the format and every argument but the
    second untouched and wraps the second, which must be a string, in a
    colour code and the reset code; called with fewer than two arguments it
    raises [IndexError], and with an integer as second argument
    [AttributeError], before anything is logged. *)
Theorem log_message_wraps_second_argument (format : string) (args : list PyVal) :
  ((length args < 2)%nat <-> log_message format args = inl IndexError)
  /\ ((exists n, args !! 1%nat = Some (PInt n))
      <-> log_message format args = inl AttributeError)
  /\ (forall status,
        args !! 1%nat = Some (PStr status) ->
        exists colored,
          log_message format args = inr (format, colored)
          /\ length colored = length args
          /\ (forall i, i <> 1%nat -> colored !! i = args !! i)
          /\ colored !! 1%nat
             = Some (PStr (status_color status +:+ status +:+ reset_color))
          /\ endswith (status_color status +:+ status +:+ reset_color) reset_color
             = true).
Proof.
  unfold log_message. split; [|split].
  - destruct (args !! 1%nat) as [[s|n]|] eqn:H.
    + split; [|done]. intros Hlt. pose proof (lookup_lt_Some _ _ _ H). lia.
    + split; [|done]. intros Hlt. pose proof (lookup_lt_Some _ _ _ H). lia.
    + split; [done|]. intros _. pose proof (proj1 (lookup_ge_None _ _) H). lia.
  - destruct (args !! 1%nat) as [[s|n]|]; split; try done.
    + by intros [n [=]].
    + by exists n.
    + by intros [n [=]].
  - intros status H. rewrite H. eexists. split; [reflexivity|].
    split; [apply length_insert|]. split; [|split].
    + intros i Hi. by apply list_lookup_insert_ne.
    + apply list_lookup_insert_eq. exact (lookup_lt_Some _ _ _ H).
    + rewrite <- append_assoc. apply endswith_append.
Qed.

Lemma log_message_wraps_second_argument_witness :
  log_request_args "GET /tiles/a/0/0/0.png HTTP/1.1" 404 !! 1%nat = Some (PStr "404")
  /\ exists colored,
       log_message "%s %s %s" (log_request_args "GET /tiles/a/0/0/0.png HTTP/1.1" 404)
       = inr ("%s %s %s", colored)
       /\ colored !! 1%nat = Some (PStr (yellow +:+ "404" +:+ reset_color)).
Proof.
  split; [reflexivity|].
  destruct (proj2 (proj2 (log_message_wraps_second_argument "%s %s %s"
                            (log_request_args "GET /tiles/a/0/0/0.png HTTP/1.1" 404)))
              "404" eq_refl) as (colored & Hrun & _ & _ & Hsecond & _).
  exists colored. split; [exact Hrun | exact Hsecond].
Defined.

(** X4.  For a request logged with a three-digit status code, the status
    is green for 200 only, yellow for 400 to 499, red for 500 to 599, and
    left in the default colour for every other code, 201 to 399 included. *)
Theorem status_color_by_class (code : Z) :
  100 <= code <= 599 ->
  status_color (str_of_Z code)
  = (if code =? 200 then green
     else if (400 <=? code) && (code <=? 499) then yellow
     else if (500 <=? code) && (code <=? 599) then red
     else reset_color).
Proof.
  intros Hcode. pose proof status_colors_checked as Hall.
  rewrite forallb_forall in Hall.
  specialize (Hall (Z.to_nat code)).
  rewrite Z2Nat.id in Hall by lia.
  apply String.eqb_eq. apply Hall. apply in_seq. lia.
Qed.

Lemma status_color_by_class_witness :
  100 <= 304 <= 599 /\ status_color (str_of_Z 304) = reset_color.
Proof.
  split; [lia|]. rewrite (status_color_by_class 304) by lia. reflexivity.
Defined.

End CorsLogFacts.

(* ===================================================================== *)
(** ** The handlers next to the library's own *)
(* ===================================================================== *)

Module HttpBaseFacts.
Import Http HttpBase HttpProofs.

Lemma mirrors_run_call v c h hb :
  mirrors v h hb -> mirrors v (run_call v c h) (run_call_base c hb).
Proof.
  intros (Hbuf & Hw & He & Hv & Hd). destruct c; cbn [run_call run_call_base].
  - unfold mirrors, send_response, send_header, send_response_only, log_request.
    cbn. by rewrite Hbuf, Hw, He, Hv, Hd.
  - unfold mirrors, send_header. cbn. by rewrite Hbuf, Hw, He, Hv, Hd.
  - unfold mirrors. rewrite wfile_end_headers.
    unfold end_headers, base_end_headers, send_header. cbn.
    rewrite Hbuf, Hw, He, Hv, Hd, map_app. by repeat split.
  - unfold mirrors, wfile_write. cbn. rewrite Hbuf, Hw, He, Hv, Hd, map_app.
    by repeat split.
  - unfold mirrors, fs_access. cbn. by rewrite Hbuf, Hw, He, Hv, Hd.
Qed.

Lemma mirrors_run_calls v cs : forall h hb,
  mirrors v h hb -> mirrors v (run_calls v cs h) (run_calls_base cs hb).
Proof.
  induction cs as [|c cs IH]; intros h hb H; [done|].
  cbn [run_calls run_calls_base]. by apply IH, mirrors_run_call.
Qed.

Lemma statuses_add_cors v (l : list Chunk) h hb :
  wfile h = map (add_cors v) l -> wfile hb = l -> statuses h = statuses hb.
Proof.
  unfold statuses. intros -> ->.
  induction l as [|c l IH]; [done|].
  cbn [map flat_map]. rewrite IH. f_equal.
  destruct c as [lines|data]; [|done].
  cbn [add_cors]. rewrite flat_map_app. cbn. by rewrite app_nil_r.
Qed.

Lemma body_add_cors v (l : list Chunk) h hb :
  wfile h = map (add_cors v) l -> wfile hb = l -> body h = body hb.
Proof.
  unfold body. intros -> ->. f_equal.
  induction l as [|c l IH]; [done|].
  cbn [map flat_map]. rewrite IH. by destruct c.
Qed.


(** *** Several requests on one connection *)

Lemma handle_keeps_cors v inherited req h :
  Forall (carries_cors v) (wfile h) ->
  Forall (carries_cors v) (wfile (handle v inherited req h)).
Proof.
  intros Hh. unfold handle. destruct (String.eqb _ _).
  - unfold do_OPTIONS. rewrite wfile_end_headers. apply Forall_app.
    split; [done|]. constructor; [apply carries_cors_block | constructor].
  - by apply run_calls_keeps_cors.
Qed.

Lemma count_blocks_handle v inherited req h :
  count_blocks (handle v inherited req h)
  = (count_blocks h + blocks_of inherited req)%nat.
Proof.
  unfold handle, blocks_of. destruct (String.eqb _ _).
  - unfold do_OPTIONS, count_blocks. rewrite wfile_end_headers.
    rewrite List.filter_app, length_app. reflexivity.
  - apply count_blocks_run_calls.
Qed.


End HttpBaseFacts.

(* ===================================================================== *)
(** ** The viewer document for any list of sources *)
(* ===================================================================== *)

Module ViewerFacts.
Import PyStr Viewer ViewerText PathFacts.

Lemma add_layers_text sources port : forall html,
  add_layers html sources port = html +:+ layers_text sources port.
Proof.
  induction sources as [|s rest IH]; intros html; cbn [add_layers layers_text].
  - by rewrite append_nil_r.
  - by rewrite IH, append_assoc.
Qed.

Lemma layers_text_app xs ys port :
  layers_text (xs ++ ys) port = layers_text xs port +:+ layers_text ys port.
Proof.
  induction xs as [|x xs IH]; cbn [app layers_text]; [done|].
  by rewrite IH, append_assoc.
Qed.

Lemma html_layer_parts source port :
  html_layer source port
  = layer_open +:+ source_layer_def source port +:+ layer_close.
Proof.
  unfold html_layer, layer_open, layer_close, source_layer_def, unlines.
  cbn [String.concat]. rewrite !append_assoc. reflexivity.
Qed.

(** X7.  For any list of sources and any port, the document is the head,
    one layer block per source in list order, and the tail; the block of
    each source defines [rasterLayers['<source>']] as a tile layer on
    [http://localhost:<port>/<source>/{z}/{x}/{y}.png], with the source
    name inserted as it is. *)
Theorem every_source_has_its_layer
  (before : list string) (source : string) (after : list string) (port : Z) :
  html_content (before ++ source :: after) port
  = (html_head +:+ layers_text before port +:+ layer_open)
    +:+ ("rasterLayers['" +:+ source +:+ "'] = L.tileLayer('http://localhost:"
           +:+ str_of_Z port +:+ "/" +:+ source +:+ "/{z}/{x}/{y}.png'")
    +:+ (layer_close +:+ layers_text after port +:+ html_tail).
Proof.
  unfold html_content. rewrite add_layers_text, layers_text_app.
  cbn [layers_text]. rewrite html_layer_parts.
  unfold source_layer_def. rewrite !append_assoc. reflexivity.
Qed.

(** With no source the document is the head and the tail, whatever the
    port. *)
Lemma no_source_no_layer port : html_content [] port = html_head +:+ html_tail.
Proof. reflexivity. Qed.

End ViewerFacts.

(* ===================================================================== *)
(** ** More about the batch drivers *)
(* ===================================================================== *)

Module DriverFacts.
Import PyStr Paths Driver Expected Observed DriverProofs DriverClaims PathFacts.

Lemma writes_app a b : writes (a ++ b) = writes a ++ writes b.
Proof. apply flat_map_app. Qed.

Lemma served_app a b : served (a ++ b) = served a ++ served b.
Proof. apply flat_map_app. Qed.

Lemma warnings_app a b :
  warnings_logged (a ++ b) = warnings_logged a ++ warnings_logged b.
Proof. apply flat_map_app. Qed.

Lemma removed_app a b : removed (a ++ b) = removed a ++ removed b.
Proof. apply flat_map_app. Qed.

Lemma listed_app a b : listed (a ++ b) = listed a ++ listed b.
Proof. apply flat_map_app. Qed.

(** *** Projections of the effects of one file *)

Lemma created_file_events w out mn mx rs gf f :
  created_dirs (file_events w out mn mx rs gf f) = [tile_dir_of out f].
Proof.
  unfold file_events.
  destruct (succeeds w (warp_of w out rs f)); [|done].
  destruct (succeeds w (tiles_of w out mn mx rs gf f)); [|done].
  by destruct (remove_ok w _).
Qed.

Lemma writes_file_events w out mn mx rs gf f :
  writes (file_events w out mn mx rs gf f) = [].
Proof.
  unfold file_events.
  destruct (succeeds w (warp_of w out rs f)); [|done].
  destruct (succeeds w (tiles_of w out mn mx rs gf f)); [|done].
  by destruct (remove_ok w _).
Qed.

Lemma served_file_events w out mn mx rs gf f :
  served (file_events w out mn mx rs gf f) = [].
Proof.
  unfold file_events.
  destruct (succeeds w (warp_of w out rs f)); [|done].
  destruct (succeeds w (tiles_of w out mn mx rs gf f)); [|done].
  by destruct (remove_ok w _).
Qed.

Lemma warnings_file_events w out mn mx rs gf f :
  warnings_logged (file_events w out mn mx rs gf f)
  = if file_ok w out mn mx rs gf f && negb (remove_ok w (vrt_path_of w out f))
    then ["Could not remove temporary file " +:+ vrt_path_of w out f]
    else [].
Proof.
  unfold file_events, file_ok.
  destruct (succeeds w (warp_of w out rs f)); [|done].
  destruct (succeeds w (tiles_of w out mn mx rs gf f)); [|done].
  by destruct (remove_ok w _).
Qed.

Lemma flat_map_if {A B} (p : A -> bool) (g : A -> B) (l : list A) :
  flat_map (fun x => if p x then [g x] else []) l = map g (List.filter p l).
Proof.
  induction l as [|x l IH]; [done|].
  cbn [flat_map List.filter]. rewrite IH. by destruct (p x).
Qed.

Lemma flat_map_one {A B} (g : A -> B) (l : list A) :
  flat_map (fun x => [g x]) l = map g l.
Proof. induction l as [|x l IH]; [done|]. cbn [flat_map map]. by rewrite IH. Qed.

Lemma flat_map_none {A B} (l : list A) : flat_map (fun _ : A => @nil B) l = [].
Proof. by induction l. Qed.

(** *** [process_with_gdal_cli] without the tool, without the directory,
    without a raster *)



(** X9.  Called on an input directory that does not exist,
    [process_with_gdal_cli] lets the [FileNotFoundError] of [os.listdir]
    escape, after the probe and before anything is created. *)
Theorem cli_raises_without_input_directory
  (w : World) (ind out : string) (mn mx : Z) (fmt rsm : string)
  (d : gmap string (list string)) :
  succeeds w ["gdal2tiles.py"; "--version"] = true ->
  d !! ind = None ->
  let r := process_with_gdal_cli w ind out mn mx fmt rsm (initial d) in
  r.1 = Raise (FileNotFoundError ind)
  /\ runs (trace r.2) = [["gdal2tiles.py"; "--version"]]
  /\ created_dirs (trace r.2) = []
  /\ errors_logged (trace r.2) = []
  /\ dirs r.2 = d.
Proof.
  intros Hp Hd r. subst r. by rewrite cli_no_directory.
Qed.

Lemma cli_raises_without_input_directory_witness :
  succeeds Scenario.healthy ["gdal2tiles.py"; "--version"] = true
  /\ (∅ : gmap string (list string)) !! "in" = None
  /\ (process_with_gdal_cli Scenario.healthy "in" "out" 0 14 "png" "cubic"
        (initial ∅)).1 = Raise (FileNotFoundError "in").
Proof.
  split; [reflexivity|]. split; [reflexivity|].
  exact (proj1 (cli_raises_without_input_directory Scenario.healthy "in" "out" 0 14
                  "png" "cubic" ∅ eq_refl eq_refl)).
Defined.

(** X10.  When no entry of the input directory passes the extension filter
    (an empty directory included), [process_with_gdal_cli] returns the
    empty list with one warning and no error: it has run the probe only and
    created no directory. *)
Theorem cli_warns_without_rasters
  (w : World) (ind out : string) (mn mx : Z) (fmt rsm : string)
  (d : gmap string (list string)) (names : list string) :
  succeeds w ["gdal2tiles.py"; "--version"] = true ->
  d !! ind = Some names ->
  List.filter is_tif_name names = [] ->
  let r := process_with_gdal_cli w ind out mn mx fmt rsm (initial d) in
  r.1 = Ok []
  /\ runs (trace r.2) = [["gdal2tiles.py"; "--version"]]
  /\ warnings_logged (trace r.2) = ["No .tif files found in " +:+ ind]
  /\ errors_logged (trace r.2) = []
  /\ created_dirs (trace r.2) = []
  /\ dirs r.2 = d.
Proof.
  intros Hp Hd Hnone r. subst r.
  rewrite (cli_run w ind out mn mx fmt rsm (initial d) names Hp Hd).
  unfold enumerated. rewrite Hnone. by repeat split.
Qed.

Lemma cli_warns_without_rasters_witness :
  succeeds Scenario.healthy ["gdal2tiles.py"; "--version"] = true
  /\ ({[ "in" := ["notes.txt"; "a.tif.bak"] ]} : gmap string (list string)) !! "in"
     = Some ["notes.txt"; "a.tif.bak"]
  /\ List.filter is_tif_name ["notes.txt"; "a.tif.bak"] = []
  /\ (process_with_gdal_cli Scenario.healthy "in" "out" 0 14 "png" "cubic"
        (initial {[ "in" := ["notes.txt"; "a.tif.bak"] ]})).1 = Ok [].
Proof.
  split; [reflexivity|]. split; [reflexivity|]. split; [reflexivity|].
  exact (proj1 (cli_warns_without_rasters Scenario.healthy "in" "out" 0 14 "png"
                  "cubic" {[ "in" := ["notes.txt"; "a.tif.bak"] ]}
                  ["notes.txt"; "a.tif.bak"] eq_refl eq_refl eq_refl)).
Defined.

(** *** Where [process_with_gdal_cli] writes, and what it removes *)

Lemma tile_dir_under out f : startswith (tile_dir_of out f) out = true.
Proof. apply join_under, source_name_not_absolute. Qed.

Lemma vrt_path_under w out f : startswith (vrt_path_of w out f) out = true.
Proof. apply join_under. reflexivity. Qed.

Lemma cli_cases w ind out mn mx fmt rsm d :
  let r := process_with_gdal_cli w ind out mn mx fmt rsm (initial d) in
  (created_dirs (trace r.2) = [] /\ removed (trace r.2) = [])
  \/ exists names,
       d !! ind = Some names
       /\ succeeds w probe = true
       /\ trace r.2
          = [Run probe; Listdir ind]
            ++ flat_map (file_events w out mn mx (chosen_resampling rsm)
                           (chosen_format fmt))
                 (enumerated ind names).
Proof.
  intros r. subst r.
  destruct (succeeds w probe) eqn:Hp.
  - destruct (d !! ind) as [names|] eqn:Hd.
    + rewrite (cli_run w ind out mn mx fmt rsm (initial d) names Hp Hd).
      cbn [snd trace initial app].
      destruct (is_empty (enumerated ind names)) eqn:He.
      * by left.
      * right. by exists names.
    + left. by rewrite cli_no_directory.
  - left. by rewrite cli_tool_missing.
Qed.




(** *** The values handed to GDAL *)



(** *** [main] of [raster_tiles.py], effect by effect *)

(** What [process_with_gdal_cli] does and returns does not depend on what
    was done before it. *)
Lemma cli_frame w ind out mn mx fmt rsm d tr :
  process_with_gdal_cli w ind out mn mx fmt rsm (mkState d tr)
  = ((process_with_gdal_cli w ind out mn mx fmt rsm (initial d)).1,
     mkState (dirs (process_with_gdal_cli w ind out mn mx fmt rsm (initial d)).2)
             (tr ++ trace (process_with_gdal_cli w ind out mn mx fmt rsm (initial d)).2)).
Proof.
  destruct (succeeds w probe) eqn:Hp.
  - destruct (d !! ind) as [names|] eqn:Hd.
    + rewrite (cli_run w ind out mn mx fmt rsm (mkState d tr) names Hp Hd).
      by rewrite (cli_run w ind out mn mx fmt rsm (initial d) names Hp Hd).
    + rewrite (cli_no_directory w ind out mn mx fmt rsm (mkState d tr) Hp Hd).
      by rewrite (cli_no_directory w ind out mn mx fmt rsm (initial d) Hp Hd).
  - rewrite (cli_tool_missing w ind out mn mx fmt rsm (mkState d tr) Hp).
    by rewrite (cli_tool_missing w ind out mn mx fmt rsm (initial d) Hp).
Qed.

Lemma serve_tail_events w ps out port st :
  is_Some (dirs st !! out) ->
  (html_path <- generate_html_viewer ps out port ;;
   log INFO ("Generated HTML viewer at " +:+ html_path) ;;
   emit (OpenBrowser ("file://" +:+ abspath w html_path)) ;;
   start_server w out port ;;
   ret 0) st
  = (server_outcome w, mkState (dirs st) (trace st ++ serve_events w ps out port)).
Proof.
  intros [names Hn]. destruct st as [d tr]. cbn [dirs] in Hn.
  unfold generate_html_viewer, start_server, server_outcome, serve_events.
  run_monad. rewrite Hn.
  destruct (server_stop w); rewrite <- !app_assoc; reflexivity.
Qed.

Lemma main_serve_only w args d :
  serve_only args = true ->
  main w args (initial d)
  = if is_empty (served_sources args d) then
      (Ok 1,
       mkState (ensured args d)
         [ Makedirs (input_dir args); Makedirs (output_dir args);
           Listdir (output_dir args);
           Log ERROR ("No tile sources found in " +:+ output_dir args) ])
    else
      (server_outcome w,
       mkState (ensured args d)
         ([ Makedirs (input_dir args); Makedirs (output_dir args);
            Listdir (output_dir args);
            Log INFO ("Found " +:+ str_of_Z (len (served_sources args d))
                        +:+ " source(s) to serve: "
                        +:+ join ", " (served_sources args d)) ]
          ++ serve_events w (served_sources args d) (output_dir args) (port args))).
Proof.
  intros Hso. unfold main, served_sources, ensured.
  rewrite bind_run, makedirs_spec.
  rewrite bind_run, makedirs_spec. cbn [dirs trace initial app].
  set (d1 := ensure_dir (output_dir args) (ensure_dir (input_dir args) d)).
  assert (Hout : is_Some (d1 !! output_dir args)) by apply ensure_dir_lookup.
  rewrite Hso. cbn [negb].
  rewrite bind_run, ret_run.
  destruct Hout as [names Hnames].
  rewrite bind_run, bind_run, (listdir_run _ names) by exact Hnames.
  rewrite bind_run, get_dirs_run. cbn [dirs trace app]. rewrite Hnames.
  cbn [default].
  destruct (is_empty _) eqn:He.
  - rewrite bind_run, log_run, ret_run, ret_run. reflexivity.
  - rewrite bind_run, log_run, ret_run. cbn [dirs trace app].
    rewrite serve_tail_events by (cbn [dirs]; by rewrite Hnames).
    reflexivity.
Qed.

Lemma summary_run w args ps st :
  (if negb (is_empty ps) then
     log INFO ("Successfully processed " +:+ str_of_Z (len ps)
                 +:+ " source(s): " +:+ join ", " ps) ;;
     log INFO ("Tiles are available in " +:+ abspath w (output_dir args))
   else log WARNING "No sources were processed") st
  = (Ok tt, mkState (dirs st) (trace st ++ summary_events w args ps)).
Proof.
  unfold summary_events. destruct (negb (is_empty ps)).
  - rewrite bind_run, log_run, log_run. cbn [dirs trace].
    by rewrite <- !app_assoc.
  - by rewrite log_run.
Qed.

Lemma main_processing w args d :
  serve_only args = false ->
  main w args (initial d)
  = (server_outcome w,
     mkState (dirs_processed w args d)
       ([ Makedirs (input_dir args); Makedirs (output_dir args) ]
        ++ processing_events w args d
        ++ summary_events w args (processed w args d)
        ++ serve_events w (processed w args d) (output_dir args) (port args))).
Proof.
  intros Hso. unfold main.
  rewrite bind_run, makedirs_spec.
  rewrite bind_run, makedirs_spec. cbn [dirs trace initial app].
  fold (ensured args d).
  assert (Hin : is_Some (ensured args d !! input_dir args)).
  { apply ensure_dir_keeps, ensure_dir_lookup. }
  assert (Hout : is_Some (ensured args d !! output_dir args))
    by apply ensure_dir_lookup.
  destruct (cli_total w (input_dir args) (output_dir args) (min_zoom args)
              (max_zoom args) (format args) (resampling args)
              (initial (ensured args d)) Hin)
    as (ps & tr & d' & Hrun & Hkeep).
  cbn [trace initial app] in Hrun.
  assert (Hcli : forall tr0,
    process_with_gdal_cli w (input_dir args) (output_dir args) (min_zoom args)
      (max_zoom args) (format args) (resampling args)
      (mkState (ensured args d) tr0)
    = (Ok ps, mkState d' (tr0 ++ tr))).
  { intros tr0. rewrite cli_frame, Hrun. reflexivity. }
  assert (Hps : (cli_of w args (ensured args d)).1 = Ok ps)
    by (unfold cli_of; by rewrite Hrun).
  assert (Htr : trace (cli_of w args (ensured args d)).2 = tr)
    by (unfold cli_of; by rewrite Hrun).
  assert (Hd' : dirs (cli_of w args (ensured args d)).2 = d')
    by (unfold cli_of; by rewrite Hrun).
  rewrite Hso. cbn [negb].
  rewrite bind_run, bind_run.
  unfold processing_events, dirs_processed, processed, runs_cli, uses_tiler.
  rewrite Hps, Htr, Hd'.
  destruct (RASTER_TILER_AVAILABLE w && negb (force_cli args)); cbn [negb].
  - rewrite bind_run, log_run. cbn [dirs trace].
    destruct (raster_tiler w args) as [msg|sources].
    + rewrite bind_run, log_run. rewrite bind_run, log_run. cbn [dirs trace].
      rewrite Hcli.
      rewrite bind_run, summary_run, ret_run. rewrite bind_run, ret_run.
      rewrite serve_tail_events by (cbn [dirs]; by apply Hkeep).
      cbn [dirs trace]. rewrite <- !app_assoc. reflexivity.
    + rewrite ret_run.
      rewrite bind_run, summary_run, ret_run. rewrite bind_run, ret_run.
      rewrite serve_tail_events by (cbn [dirs]; exact Hout).
      cbn [dirs trace]. rewrite <- !app_assoc. reflexivity.
  - rewrite bind_run, log_run. cbn [dirs trace]. rewrite Hcli.
    assert (Hcase : match raster_tiler w args with
                    | inl _ | inr _ => true
                    end = true) by (by destruct (raster_tiler w args)).
    rewrite Hcase.
    rewrite bind_run, summary_run, ret_run. rewrite bind_run, ret_run.
    rewrite serve_tail_events by (cbn [dirs]; by apply Hkeep).
    cbn [dirs trace]. rewrite <- !app_assoc. reflexivity.
Qed.

Lemma cli_writes_nothing w ind out mn mx fmt rsm d :
  writes (trace (process_with_gdal_cli w ind out mn mx fmt rsm (initial d)).2) = []
  /\ served (trace (process_with_gdal_cli w ind out mn mx fmt rsm (initial d)).2) = [].
Proof.
  destruct (succeeds w probe) eqn:Hp.
  - destruct (d !! ind) as [names|] eqn:Hd.
    + rewrite (cli_run w ind out mn mx fmt rsm (initial d) names Hp Hd).
      cbn [snd trace initial]. rewrite app_nil_l, writes_app, served_app.
      destruct (is_empty _); [done|].
      rewrite (obs_flat_map writes _ (fun _ => []));
        [| done | apply writes_app | intros; apply writes_file_events].
      rewrite (obs_flat_map served _ (fun _ => []));
        [| done | apply served_app | intros; apply served_file_events].
      by rewrite !flat_map_none.
    + by rewrite cli_no_directory.
  - by rewrite cli_tool_missing.
Qed.

Lemma serve_events_observed w ps out port :
  runs (serve_events w ps out port) = []
  /\ writes (serve_events w ps out port)
     = [(Viewer.html_path out, Viewer.html_content ps port)]
  /\ served (serve_events w ps out port)
     = match server_stop w with
       | KeyboardInterrupt => [port]
       | AddressInUse => []
       end
  /\ errors_logged (serve_events w ps out port) = []
  /\ created_dirs (serve_events w ps out port) = [].
Proof. unfold serve_events. by destruct (server_stop w). Qed.

Lemma summary_events_observed w args ps :
  runs (summary_events w args ps) = []
  /\ writes (summary_events w args ps) = []
  /\ served (summary_events w args ps) = []
  /\ errors_logged (summary_events w args ps) = []
  /\ created_dirs (summary_events w args ps) = [].
Proof. unfold summary_events. by destruct (negb (is_empty ps)). Qed.

Lemma processing_events_observed w args d :
  runs (processing_events w args d)
  = (if runs_cli w args then runs (trace (cli_of w args (ensured args d)).2) else [])
  /\ writes (processing_events w args d) = []
  /\ served (processing_events w args d) = [].
Proof.
  destruct (cli_writes_nothing w (input_dir args) (output_dir args) (min_zoom args)
              (max_zoom args) (format args) (resampling args) (ensured args d))
    as [Hw Hs].
  fold (cli_of w args (ensured args d)) in Hw, Hs.
  assert (Hlog : forall lv m l,
            runs (Log lv m :: l) = runs l /\ writes (Log lv m :: l) = writes l
            /\ served (Log lv m :: l) = served l) by done.
  unfold processing_events, runs_cli.
  destruct (uses_tiler w args); cbn [negb].
  - destruct (raster_tiler w args) as [msg|sources].
    + cbn [app].
      destruct (Hlog INFO "Using Python GDAL through RasterTiler"
                  (Log ERROR ("Error using RasterTiler: " +:+ msg)
                   :: Log INFO "Falling back to command-line GDAL tools"
                   :: trace (cli_of w args (ensured args d)).2)) as (-> & -> & ->).
      destruct (Hlog ERROR ("Error using RasterTiler: " +:+ msg)
                  (Log INFO "Falling back to command-line GDAL tools"
                   :: trace (cli_of w args (ensured args d)).2)) as (-> & -> & ->).
      destruct (Hlog INFO "Falling back to command-line GDAL tools"
                  (trace (cli_of w args (ensured args d)).2)) as (-> & -> & ->).
      by rewrite Hw, Hs.
    + by repeat split.
  - destruct (Hlog INFO "Using command-line GDAL tools"
                (trace (cli_of w args (ensured args d)).2)) as (-> & -> & ->).
    rewrite Hw, Hs. by destruct (raster_tiler w args).
Qed.



(** X15.  In processing mode [main] always writes exactly one file, the
    viewer, for the sources the processing returned (those of
    [RasterTiler] when it is used and does not fail, else those of
    [process_with_gdal_cli] run on the two directories just created), even
    when that list is empty; the commands it runs are those of the
    command-line path, or none when [RasterTiler] did the work; and only a
    server that cannot bind makes it fail. *)
Theorem processing_mode_writes_one_viewer
  (w : World) (args : Args) (d : gmap string (list string)) :
  serve_only args = false ->
  let r := main w args (initial d) in
  r.1 = server_outcome w
  /\ writes (trace r.2)
     = [(Viewer.html_path (output_dir args),
         Viewer.html_content (processed w args d) (port args))]
  /\ runs (trace r.2)
     = (if runs_cli w args then runs (trace (cli_of w args (ensured args d)).2)
        else [])
  /\ served (trace r.2)
     = match server_stop w with
       | KeyboardInterrupt => [port args]
       | AddressInUse => []
       end.
Proof.
  intros Hso r. subst r. rewrite main_processing by done.
  cbn [fst snd trace].
  destruct (serve_events_observed w (processed w args d) (output_dir args) (port args))
    as (Hr & Hw & Hs & _).
  destruct (summary_events_observed w args (processed w args d))
    as (Hr' & Hw' & Hs' & _).
  destruct (processing_events_observed w args d) as (Hr'' & Hw'' & Hs'').
  rewrite !runs_app, !writes_app, !served_app.
  rewrite Hr, Hw, Hs, Hr', Hw', Hs', Hr'', Hw'', Hs''.
  cbn [runs writes served flat_map app]. by rewrite !app_nil_r.
Qed.

Lemma processing_mode_writes_one_viewer_witness :
  serve_only Scenario.default_args = false
  /\ writes (trace (main Scenario.one_bad_file Scenario.default_args
                      (initial Scenario.mixed_dir)).2)
     = [("out/viewer.html", Viewer.html_content ["a"; "C"] 8090)].
Proof.
  split; [reflexivity|].
  destruct (processing_mode_writes_one_viewer Scenario.one_bad_file
              Scenario.default_args Scenario.mixed_dir eq_refl)
    as (_ & Hw & _).
  rewrite Hw. vm_compute. reflexivity.
Defined.

(** X16.  When [RasterTiler] is importable but fails, [main] behaves as
    with [--force-cli]: same result, same commands, same directories, same
    viewer; the log alone tells the two runs apart. *)
Theorem tiler_failure_is_force_cli
  (w : World) (args : Args) (d : gmap string (list string)) (msg : string) :
  serve_only args = false ->
  uses_tiler w args = true ->
  raster_tiler w args = inl msg ->
  let r := main w args (initial d) in
  let r' := main w (with_force_cli args) (initial d) in
  r.1 = r'.1
  /\ runs (trace r.2) = runs (trace r'.2)
  /\ writes (trace r.2) = writes (trace r'.2)
  /\ served (trace r.2) = served (trace r'.2)
  /\ dirs r.2 = dirs r'.2.
Proof.
  intros Hso Hu Hfail r r'.
  assert (Hso' : serve_only (with_force_cli args) = false) by exact Hso.
  assert (Hcli : runs_cli w args = true) by (unfold runs_cli; by rewrite Hfail).
  assert (Hcli' : runs_cli w (with_force_cli args) = true).
  { unfold runs_cli, uses_tiler.
    change (force_cli (with_force_cli args)) with true.
    cbn [negb]. rewrite andb_false_r.
    destruct (raster_tiler w (with_force_cli args)); reflexivity. }
  assert (Hp : processed w (with_force_cli args) d = processed w args d).
  { unfold processed. rewrite Hcli, Hcli'. reflexivity. }
  destruct (processing_events_observed w args d) as (Ha & Hb & Hc).
  destruct (processing_events_observed w (with_force_cli args) d) as (Ha' & Hb' & Hc').
  rewrite Hcli in Ha. rewrite Hcli' in Ha'.
  subst r r'. rewrite !main_processing by done. cbn [fst snd trace dirs].
  rewrite Hp. unfold dirs_processed. rewrite Hcli, Hcli'.
  rewrite !runs_app, !writes_app, !served_app, Ha, Hb, Hc, Ha', Hb', Hc'.
  repeat split; reflexivity.
Qed.

Lemma tiler_failure_is_force_cli_witness :
  serve_only Scenario.default_args = false
  /\ uses_tiler Scenario2.tiler_fails Scenario.default_args = true
  /\ raster_tiler Scenario2.tiler_fails Scenario.default_args
     = inl "No module named osgeo"
  /\ runs (trace (main Scenario2.tiler_fails Scenario.default_args
                    (initial Scenario.mixed_dir)).2)
     = runs (trace (main Scenario2.tiler_fails (with_force_cli Scenario.default_args)
                      (initial Scenario.mixed_dir)).2).
Proof.
  split; [reflexivity|]. split; [reflexivity|]. split; [reflexivity|].
  exact (proj1 (proj2 (tiler_failure_is_force_cli Scenario2.tiler_fails
                         Scenario.default_args Scenario.mixed_dir
                         "No module named osgeo" eq_refl eq_refl eq_refl))).
Defined.

(** ** The second driver, [raster_tiles_v2.py] *)



Lemma single_file_events w args d name :
  gate2 w = true ->
  single_file args = Some name ->
  let p := pathlib_child w (input_dir2 args) name in
  (main2 w args (initial d)).2
  = mkState (ensure_dir (output_dir2 args) d)
      ([ Run probe2;
         Log INFO ("Processing GeoTIFFs from " +:+ input_dir2 args);
         Log INFO ("Output directory: " +:+ output_dir2 args);
         Log INFO ("Zoom levels: " +:+ str_of_Z (min_zoom2 args) +:+ " to "
                     +:+ str_of_Z (max_zoom2 args));
         Log INFO ("Format: " +:+ format2 args);
         Log INFO ("Resampling: " +:+ resampling2 args);
         Log INFO ("Processing only file: " +:+ name);
         Makedirs (output_dir2 args);
         Exists p ]
       ++ (if path_exists w p then batch_events2 w args [p]
           else [ Log ERROR ("Specified file " +:+ p +:+ " does not exist") ])).
Proof.
  intros Hg Hs p. rewrite main2_spec. cbn [snd initial dirs trace].
  unfold main2_events. by rewrite Hg, Hs.
Qed.



(** X19.  The availability gate of the second driver is passed as soon as
    the Python bindings can be imported, even if no GDAL command is
    installed: the run then goes on, starts one [gdal2tiles.py] per globbed
    file, logs one error for each of them, and leaves through
    [sys.exit(1)]; the message about missing tools is never logged. *)
Theorem bindings_without_tools_try_every_file
  (w : World) (args : Args2) (d : gmap string (list string)) :
  HAS_GDAL w = true ->
  nothing_installed w ->
  single_file args = None ->
  enumerated2 w args d <> [] ->
  let r := main2 w args (initial d) in
  r.1 = Raise (SystemExit 1)
  /\ runs (trace r.2) = probe2 :: map (cmd2 args) (enumerated2 w args d)
  /\ errors_logged (trace r.2)
     = map (fun f => "Error running gdal2tiles.py: "
                       +:+ str_exn w (FileNotFoundError "gdal2tiles.py"))
           (enumerated2 w args d).
Proof.
  intros Hb Hnone Hs Hne r.
  assert (Hg : gate2 w = true) by (unfold gate2; by rewrite Hb).
  subst r. rewrite runs_main2, errors_main2, Hg by done.
  split; [|split; [done|]].
  - rewrite main2_spec. cbn [fst initial dirs]. do 2 f_equal.
    unfold full_success2. rewrite Hg.
    destruct (enumerated2 w args d) as [|f rest]; [done|].
    assert (Hf : succeeds w (cmd2 args f) = false)
      by (unfold succeeds; by rewrite Hnone).
    cbn [is_empty negb andb forallb]. by rewrite Hf.
  - clear Hne. induction (enumerated2 w args d) as [|f rest IH]; [done|].
    cbn [flat_map map]. rewrite IH.
    unfold cli_errors. by rewrite Hnone.
Qed.

Lemma bindings_without_tools_try_every_file_witness :
  HAS_GDAL Scenario2.bindings_only = true
  /\ nothing_installed Scenario2.bindings_only
  /\ single_file Scenario.default_args2 = None
  /\ enumerated2 Scenario2.bindings_only Scenario.default_args2 Scenario.mixed_dir <> []
  /\ (main2 Scenario2.bindings_only Scenario.default_args2
        (initial Scenario.mixed_dir)).1 = Raise (SystemExit 1).
Proof.
  assert (Hne : enumerated2 Scenario2.bindings_only Scenario.default_args2
                  Scenario.mixed_dir <> []) by (vm_compute; discriminate).
  split; [reflexivity|]. split; [intros argv; reflexivity|].
  split; [reflexivity|]. split; [exact Hne|].
  exact (proj1 (bindings_without_tools_try_every_file Scenario2.bindings_only
                  Scenario.default_args2 Scenario.mixed_dir eq_refl
                  (fun _ => eq_refl) eq_refl Hne)).
Defined.

End DriverFacts.
